(** * binder-web-app: the Jupyter Server Proxy test server

    A shallow embedding of [test_jupyter_proxy.py] and of the companion
    [.jupyter/jupyter_server_config.py], with the properties of the
    request handler, of [start_test_server], of the command line entry point
    and of the sample configuration.

    Conventions.
    - A Python [str] is a [string] of bytes holding its UTF-8 encoding, so
      [str.encode()] is the identity and [endswith("/")] is a test on the last
      byte.
    - A Python [int] is a [Z].
    - [os.environ] is a finite map from names to values.
    - The parts of the Python standard library the program calls are
      modelled in [Module Http] ([http.server]) and [Module SocketServer]
      ([socketserver]), each definition naming the library function it
      follows; the operating system is [Os.world].
    - A call that may block ends in an [outcome]: it returns, raises, or
      runs for ever. *)

From Stdlib Require Import ZArith String Ascii List Bool Lia DecimalString.
From stdpp Require Import gmap strings.
Import ListNotations.
Open Scope string_scope.
Open Scope Z_scope.

(** ** Python built-ins used by the program *)

Module Py.

(** The characters that cannot be written inside a literal. *)
Definition dq : string := String (ascii_of_nat 34) EmptyString.
Definition nl : string := String (ascii_of_nat 10) EmptyString.

(** Values that reach [str()], [repr()] and the [%] operator. *)
Inductive value :=
| VStr (s : string)
| VInt (n : Z).

(** Exceptions the program raises, catches or lets through. *)
Inductive exn :=
| OSError (errno : Z)
| OverflowError
| ValueError
| TypeError
| AttributeError (obj attr : string)
| KeyboardInterrupt
| SystemExit (code : Z).

(** The result of a call: a value, or a raised exception. *)
Inductive result (A : Type) :=
| Ok (a : A)
| Raise (e : exn).
Arguments Ok {A} a.
Arguments Raise {A} e.

(** Truth value of a [str]: false exactly for the empty string. *)
Definition truthy (s : string) : bool :=
  match s with
  | EmptyString => false
  | String _ _ => true
  end.

(** [a or b] on strings. *)
Definition or_ (a b : string) : string := if truthy a then a else b.

(** [s.endswith(suffix)]. *)
Definition endswith (s suffix : string) : bool :=
  let n := String.length s in
  let m := String.length suffix in
  (m <=? n)%nat && String.eqb (substring (n - m) m s) suffix.

(** [needle in hay]. *)
Fixpoint contains (needle hay : string) : bool :=
  String.prefix needle hay ||
  match hay with
  | EmptyString => false
  | String _ rest => contains needle rest
  end.

(** [needle] occurs in [hay], as a proposition. *)
Definition is_infix (needle hay : string) : Prop :=
  exists before after, hay = before +:+ needle +:+ after.

(** [mapping.get(key, default)] on [os.environ]. *)
Definition environ_get (environ : gmap string string) (key default : string) : string :=
  match environ !! key with
  | Some v => v
  | None => default
  end.

(** [str(n)] for an [int]. *)
Definition str_int (n : Z) : string := NilZero.string_of_int (Z.to_int n).

(** *** [repr] of a [str]

    CPython's [unicode_repr]: single quotes, unless the text holds a single
    quote and no double quote; the backslash, the chosen quote, tab, newline
    and carriage return are escaped, other control bytes are written
    [\xNN]. Bytes from 128 on (UTF-8 of printable characters) stay. *)

Definition hex_digit (n : nat) : ascii :=
  match n with
  | 0%nat => "0" | 1%nat => "1" | 2%nat => "2" | 3%nat => "3"
  | 4%nat => "4" | 5%nat => "5" | 6%nat => "6" | 7%nat => "7"
  | 8%nat => "8" | 9%nat => "9" | 10%nat => "a" | 11%nat => "b"
  | 12%nat => "c" | 13%nat => "d" | 14%nat => "e" | _ => "f"
  end%char.

Definition has_char (c : ascii) (s : string) : bool :=
  existsb (Ascii.eqb c) (list_ascii_of_string s).

Definition repr_quote (s : string) : ascii :=
  if has_char "'"%char s && negb (has_char (ascii_of_nat 34) s)
  then ascii_of_nat 34 else "'"%char.

Definition repr_char (quote c : ascii) : string :=
  let n := nat_of_ascii c in
  if Ascii.eqb c "\"%char then "\\"
  else if Ascii.eqb c quote then String "\"%char (String c EmptyString)
  else if (n =? 9)%nat then "\t"
  else if (n =? 10)%nat then "\n"
  else if (n =? 13)%nat then "\r"
  else if (n <? 32)%nat || (n =? 127)%nat then
    String "\"%char (String "x"%char
      (String (hex_digit (n / 16)) (String (hex_digit (n mod 16)) EmptyString)))
  else String c EmptyString.

Fixpoint repr_body (quote : ascii) (s : string) : string :=
  match s with
  | EmptyString => EmptyString
  | String c rest => repr_char quote c +:+ repr_body quote rest
  end.

Definition repr_str (s : string) : string :=
  let q := repr_quote s in
  String q (repr_body q s) +:+ String q EmptyString.

Definition repr (v : value) : string :=
  match v with
  | VStr s => repr_str s
  | VInt n => str_int n
  end.

Definition str (v : value) : string :=
  match v with
  | VStr s => s
  | VInt n => str_int n
  end.

(** [str(d)] for a [dict] with [str] keys, in insertion order. *)
Fixpoint str_items (items : list (string * value)) : string :=
  match items with
  | [] => EmptyString
  | [(k, v)] => repr_str k +:+ ": " +:+ repr v
  | (k, v) :: rest => repr_str k +:+ ": " +:+ repr v +:+ ", " +:+ str_items rest
  end.

Definition str_dict (items : list (string * value)) : string :=
  "{" +:+ str_items items +:+ "}".

(** *** [format % args]

    The conversions the server's log formats use: [%s], [%d] and [%%].
    A missing argument, an argument left over, a [str] given to [%d] or an
    unknown conversion raise. *)

Fixpoint format_ (fmt : string) (args : list value) : result string :=
  match fmt with
  | EmptyString =>
      match args with
      | [] => Ok EmptyString
      | _ :: _ => Raise TypeError
      end
  | String "%"%char (String "%"%char rest) =>
      match format_ rest args with
      | Ok s => Ok (String "%"%char s)
      | Raise e => Raise e
      end
  | String "%"%char (String "s"%char rest) =>
      match args with
      | [] => Raise TypeError
      | v :: args' =>
          match format_ rest args' with
          | Ok s => Ok (str v +:+ s)
          | Raise e => Raise e
          end
      end
  | String "%"%char (String "d"%char rest) =>
      match args with
      | VInt n :: args' =>
          match format_ rest args' with
          | Ok s => Ok (str_int n +:+ s)
          | Raise e => Raise e
          end
      | _ => Raise TypeError
      end
  | String "%"%char _ => Raise ValueError
  | String c rest =>
      match format_ rest args with
      | Ok s => Ok (String c s)
      | Raise e => Raise e
      end
  end.

(** *** [int(text)]

    Base ten, as [PyLong_FromString] reads it: surrounding white space, an
    optional sign, then digits in which single underscores may separate
    digits; at most [max_str_digits] digits. Only ASCII digits and ASCII
    white space are read. *)

Definition is_space (c : ascii) : bool :=
  let n := nat_of_ascii c in
  ((9 <=? n) && (n <=? 13))%nat || ((28 <=? n) && (n <=? 32))%nat.

Definition digit_value (c : ascii) : option Z :=
  let n := nat_of_ascii c in
  if ((48 <=? n) && (n <=? 57))%nat then Some (Z.of_nat (n - 48)) else None.

Definition max_str_digits : nat := 4300.

Fixpoint lstrip (s : string) : string :=
  match s with
  | String c rest => if is_space c then lstrip rest else s
  | EmptyString => EmptyString
  end.

Definition all_space (s : string) : bool :=
  forallb is_space (list_ascii_of_string s).

(** [digits acc count after_digit s]: reads the digits of [s] on top of the
    value [acc]; [after_digit] tells that the previous character was a
    digit, the only place where an underscore or the end may come. *)
Fixpoint digits (acc : Z) (count : nat) (after_digit : bool) (s : string)
  : option (Z * nat) :=
  match s with
  | EmptyString => if after_digit then Some (acc, count) else None
  | String c rest =>
      match digit_value c with
      | Some d => digits (10 * acc + d) (S count) true rest
      | None =>
          if Ascii.eqb c "_"%char then
            if after_digit then digits acc count false rest else None
          else if after_digit && all_space s then Some (acc, count)
          else None
      end
  end.

Definition int_of_str (text : string) : result Z :=
  let s := lstrip text in
  let '(negative, s') :=
    match s with
    | String "-"%char rest => (true, rest)
    | String "+"%char rest => (false, rest)
    | _ => (false, s)
    end in
  match digits 0 0 false s' with
  | Some (n, count) =>
      if (max_str_digits <? count)%nat then Raise ValueError
      else Ok (if negative then - n else n)
  | None => Raise ValueError
  end.

End Py.

(** ** The process and what surrounds it *)

Module Os.
Import Py.

(** The number the operating system gives to "address already in use"
    depends on the platform ([errno.EADDRINUSE]). *)
Inductive platform := Linux | Darwin | Windows.

Definition EADDRINUSE (pl : platform) : Z :=
  match pl with
  | Linux => 98
  | Darwin => 48
  | Windows => 10048
  end.

Definition EACCES : Z := 13.

(** What the working directory holds under a request path, as
    [SimpleHTTPRequestHandler.send_head] sees it after [translate_path]:
    - [NoEntry]: [open] raises [OSError] (no such file, no permission);
    - [RegularFile]: a file (or the index file of a directory) to send;
    - [NotModified]: a file the request's If-Modified-Since header makes
      unnecessary to send;
    - [DirectoryRedirect]: a directory asked for without the final slash;
    - [DirectoryListing]: a directory without index file;
    - [Unopenable]: a path that cannot be handed to the system at all (an
      escaped null byte as in [/%00], a lone surrogate): [os.path.isdir]
      is false and [open] raises [ValueError], which [send_head] does not
      catch. *)
Inductive fs_entry :=
| NoEntry
| RegularFile (ctype content modified : string)
| NotModified
| DirectoryRedirect (location : string)
| DirectoryListing (listing : string)
| Unopenable.

(** A GET request as [BaseHTTPRequestHandler.parse_request] leaves it. *)
Record request := {
  client_address : string * Z;
  requestline : string;
  path : string;
}.

(** What has been written to the connection. *)
Record response := {
  status : option (Z * string);
  headers : list (string * string);
  headers_ended : bool;
  body : string;
}.

Definition no_response : response :=
  {| status := None; headers := []; headers_ended := false; body := EmptyString |}.

(** A [threading.Thread] whose target serves the socket bound to [t_port]. *)
Record thread := {
  t_port : Z;
  t_daemon : bool;
  t_started : bool;
}.

(** The process and its surroundings.
    - [environ]: [os.environ]; [filesystem]: the working directory;
      [clock]: the date [date_time_string()] gives.
    - [in_use]: the ports other processes listen on; [listening]: the
      ports of the open listening sockets of this process;
      [privileged]: whether ports below 1024 may be bound.
    - [threads]: the threads started.
    - [incoming]: the requests clients send to the server, in order;
      [sigint]: whether an interrupt arrives once they are answered.
    - [stdout], [stderr]: what was printed, one entry per [print];
      [served]: what each answered connection received.
    - [later]: the environment, working directory and date found when
      each of the incoming requests is accepted, in order; once the list
      is used up they stay as they are. *)
Record world := {
  platform_of : platform;
  environ : gmap string string;
  filesystem : string -> fs_entry;
  clock : string;
  privileged : bool;
  in_use : list Z;
  listening : list Z;
  threads : list thread;
  incoming : list request;
  sigint : bool;
  stdout : list string;
  stderr : list string;
  served : list response;
  later : list (gmap string string * (string -> fs_entry) * string);
}.

(** Field updates. *)
Definition set_stdout (w : world) (v : list string) : world :=
  {| platform_of := platform_of w; environ := environ w; filesystem := filesystem w;
     clock := clock w; privileged := privileged w; in_use := in_use w;
     listening := listening w; threads := threads w; incoming := incoming w;
     sigint := sigint w; stdout := v; stderr := stderr w; served := served w; later := later w |}.

Definition set_stderr (w : world) (v : list string) : world :=
  {| platform_of := platform_of w; environ := environ w; filesystem := filesystem w;
     clock := clock w; privileged := privileged w; in_use := in_use w;
     listening := listening w; threads := threads w; incoming := incoming w;
     sigint := sigint w; stdout := stdout w; stderr := v; served := served w; later := later w |}.

Definition set_listening (w : world) (v : list Z) : world :=
  {| platform_of := platform_of w; environ := environ w; filesystem := filesystem w;
     clock := clock w; privileged := privileged w; in_use := in_use w;
     listening := v; threads := threads w; incoming := incoming w;
     sigint := sigint w; stdout := stdout w; stderr := stderr w; served := served w; later := later w |}.

Definition set_threads (w : world) (v : list thread) : world :=
  {| platform_of := platform_of w; environ := environ w; filesystem := filesystem w;
     clock := clock w; privileged := privileged w; in_use := in_use w;
     listening := listening w; threads := v; incoming := incoming w;
     sigint := sigint w; stdout := stdout w; stderr := stderr w; served := served w; later := later w |}.

Definition set_incoming (w : world) (v : list request) : world :=
  {| platform_of := platform_of w; environ := environ w; filesystem := filesystem w;
     clock := clock w; privileged := privileged w; in_use := in_use w;
     listening := listening w; threads := threads w; incoming := v;
     sigint := sigint w; stdout := stdout w; stderr := stderr w; served := served w; later := later w |}.

Definition set_served (w : world) (v : list response) : world :=
  {| platform_of := platform_of w; environ := environ w; filesystem := filesystem w;
     clock := clock w; privileged := privileged w; in_use := in_use w;
     listening := listening w; threads := threads w; incoming := incoming w;
     sigint := sigint w; stdout := stdout w; stderr := stderr w; served := v; later := later w |}.

(** Time passes until the next request is accepted: the surroundings
    become those of [later]'s head. *)
Definition arrive (w : world) : world :=
  match later w with
  | [] => w
  | (environ', filesystem', clock') :: rest =>
      {| platform_of := platform_of w; environ := environ'; filesystem := filesystem';
         clock := clock'; privileged := privileged w; in_use := in_use w;
         listening := listening w; threads := threads w; incoming := incoming w;
         sigint := sigint w; stdout := stdout w; stderr := stderr w; served := served w;
         later := rest |}
  end.

(** [print(text)]: one entry of [stdout] per call. *)
Definition print (text : string) (w : world) : world :=
  set_stdout w (stdout w ++ [text]).

Definition mem (port : Z) (ports : list Z) : bool := existsb (Z.eqb port) ports.

(** [socket.bind((host, port))] with the empty host, followed by [listen]:
    the exception raised,
    if any. A port outside 0..65535 is refused before the system call; a
    port some socket already listens on fails with the platform's
    EADDRINUSE; a port below 1024 needs privileges. Only the sockets that
    listen now are looked at: how long the system keeps a port after its
    socket was closed (connections in TIME_WAIT, a closed socket a thread
    still polls) is outside the model, and nothing below is stated about
    binding a port again after a close. *)
Definition socket_bind (port : Z) (w : world) : option exn :=
  if negb ((0 <=? port) && (port <=? 65535)) then Some OverflowError
  else if mem port (in_use w) || mem port (listening w)
       then Some (OSError (EADDRINUSE (platform_of w)))
  else if (0 <? port) && (port <? 1024) && negb (privileged w)
       then Some (OSError EACCES)
  else None.

(** [socket.close()] of the listening socket on [port]. *)
Definition socket_close (port : Z) (w : world) : world :=
  set_listening w (List.filter (fun p => negb (Z.eqb p port)) (listening w)).

(** A client connecting to [port] is accepted only while a socket of the
    process listens there. *)
Definition accepts (port : Z) (w : world) : bool := mem port (listening w).

End Os.

(** ** The standard library's HTTP server, as far as the program uses it *)

Module Http.
Import Py Os.

(** *** Servers

    [socketserver.TCPServer.server_bind] records [server_address] only;
    the attribute [server_port] is assigned by
    [http.server.HTTPServer.server_bind], so it exists on an [HTTPServer]
    and not on a plain [TCPServer]. *)
Inductive server_class := TCPServer | HTTPServer.

Record server := {
  class_of : server_class;
  server_address : string * Z;
}.

(** Reading [server.server_port]. *)
Definition server_port (srv : server) : result Z :=
  match class_of srv with
  | HTTPServer => Ok (snd (server_address srv))
  | TCPServer => Raise (AttributeError "TCPServer" "server_port")
  end.

(** *** Handler computations

    A handler method runs against the process and the connection it
    answers; what it wrote before raising stays written. *)
Definition M (A : Type) : Type := world * response -> result A * (world * response).

Definition ret {A} (a : A) : M A := fun s => (Ok a, s).

Definition bind {A B} (c : M A) (k : A -> M B) : M B :=
  fun s =>
    match c s with
    | (Ok a, s') => k a s'
    | (Raise e, s') => (Raise e, s')
    end.

#[global] Instance M_ret : MRet M := @ret.
#[global] Instance M_bind : MBind M := fun A B k c => bind c k.

(** A raised exception or a returned value of a pure call. *)
Definition lift {A} (r : result A) : M A := fun s => (r, s).

Definition get_world : M world := fun s => (Ok (fst s), s).

Definition on_world (f : world -> world) : M unit :=
  fun s => (Ok tt, (f (fst s), snd s)).

Definition on_response (f : response -> response) : M unit :=
  fun s => (Ok tt, (fst s, f (snd s))).

(** The handler instance: the request and the server that dispatched it. *)
Record handler := {
  request_of : request;
  server_of : server;
}.

(** The methods a handler class may override. *)
Class RequestHandler := {
  log_message : handler -> string -> list value -> M unit;
}.

(** [BaseHTTPRequestHandler.address_string]. *)
Definition address_string (self : handler) : string :=
  fst (client_address (request_of self)).

(** [BaseHTTPRequestHandler.responses]: short message and explanation,
    for the status codes this server sends. *)
Definition responses (code : Z) : option (string * string) :=
  if code =? 200 then Some ("OK", "Request fulfilled, document follows")
  else if code =? 301 then Some ("Moved Permanently", "Object moved permanently -- see URI list")
  else if code =? 304 then Some ("Not Modified", "Document has not changed since given time")
  else if code =? 404 then Some ("Not Found", "Nothing matches the given URI")
  else None.

(** [version_string()]: [server_version] and [sys_version], here those of
    Python 3.11.2. *)
Definition version_string : string := "SimpleHTTP/0.6 Python/3.11.2".

Section Methods.
Context `{RequestHandler}.

(** [log_request(code)], with the default [size]. *)
Definition log_request (self : handler) (code : Z) : M unit :=
  log_message self (dq +:+ "%s" +:+ dq +:+ " %s %s")
    [VStr (requestline (request_of self)); VStr (str_int code); VStr "-"].

(** [log_error(format, *args)]. *)
Definition log_error (self : handler) (format : string) (args : list value) : M unit :=
  log_message self format args.

(** [send_response_only(code, message)] for a request of HTTP/1.0 or later. *)
Definition send_response_only (code : Z) (message : option string) : M unit :=
  let message :=
    match message with
    | Some m => m
    | None => match responses code with Some (short, _) => short | None => EmptyString end
    end in
  on_response (fun r =>
    {| status := Some (code, message); headers := headers r;
       headers_ended := headers_ended r; body := body r |}).

(** [send_header(keyword, value)]. *)
Definition send_header (keyword value : string) : M unit :=
  on_response (fun r =>
    {| status := status r; headers := headers r ++ [(keyword, value)];
       headers_ended := headers_ended r; body := body r |}).

(** [end_headers()]. *)
Definition end_headers : M unit :=
  on_response (fun r =>
    {| status := status r; headers := headers r;
       headers_ended := true; body := body r |}).

(** [wfile.write(data)]. *)
Definition wfile_write (data : string) : M unit :=
  on_response (fun r =>
    {| status := status r; headers := headers r;
       headers_ended := headers_ended r; body := body r +:+ data |}).

(** [send_response(code, message)]: logs the request, then the status line
    and the Server and Date headers. *)
Definition send_response (self : handler) (code : Z) (message : option string) : M unit :=
  log_request self code;;
  send_response_only code message;;
  send_header "Server" version_string;;
  w ← get_world;
  send_header "Date" (clock w).

(** [DEFAULT_ERROR_MESSAGE % {code, message, explain}]; the messages the
    server passes hold nothing for [html.escape] to change. *)
Definition error_message_format (code : Z) (message explain : string) : string :=
  "<!DOCTYPE HTML>
<html lang=" +:+ dq +:+ "en" +:+ dq +:+ ">
    <head>
        <meta charset=" +:+ dq +:+ "utf-8" +:+ dq +:+ ">
        <title>Error response</title>
    </head>
    <body>
        <h1>Error response</h1>
        <p>Error code: " +:+ str_int code +:+ "</p>
        <p>Message: " +:+ message +:+ ".</p>
        <p>Error code explanation: " +:+ str_int code +:+ " - " +:+ explain +:+ ".</p>
    </body>
</html>
".

(** [send_error(code, message)] for a GET request and a code that carries
    a body. *)
Definition send_error (self : handler) (code : Z) (message : string) : M unit :=
  let explain := match responses code with Some (_, long) => long | None => "???" end in
  log_error self "code %d, message %s" [VInt code; VStr message];;
  send_response self code (Some message);;
  send_header "Connection" "close";;
  let content := error_message_format code message explain in
  send_header "Content-Type" "text/html;charset=utf-8";;
  send_header "Content-Length" (str_int (Z.of_nat (String.length content)));;
  end_headers;;
  wfile_write content.

(** [SimpleHTTPRequestHandler.send_head]: the headers, and the file object
    to copy, if any. Only [OSError] is caught around [open]: the
    [ValueError] of a path that cannot be opened leaves the method before
    anything is logged or sent. *)
Definition send_head (self : handler) : M (option string) :=
  w ← get_world;
  match filesystem w (path (request_of self)) with
  | DirectoryRedirect location =>
      send_response self 301 None;;
      send_header "Location" location;;
      send_header "Content-Length" "0";;
      end_headers;;
      mret None
  | DirectoryListing listing =>
      send_response self 200 None;;
      send_header "Content-type" "text/html; charset=utf-8";;
      send_header "Content-Length" (str_int (Z.of_nat (String.length listing)));;
      end_headers;;
      mret (Some listing)
  | RegularFile ctype content modified =>
      send_response self 200 None;;
      send_header "Content-type" ctype;;
      send_header "Content-Length" (str_int (Z.of_nat (String.length content)));;
      send_header "Last-Modified" modified;;
      end_headers;;
      mret (Some content)
  | NotModified =>
      send_response self 304 None;;
      end_headers;;
      mret None
  | NoEntry =>
      send_error self 404 "File not found";;
      mret None
  | Unopenable => lift (Raise ValueError)
  end.

(** [SimpleHTTPRequestHandler.do_GET]. *)
Definition SimpleHTTPRequestHandler_do_GET (self : handler) : M unit :=
  f ← send_head self;
  match f with
  | Some content => wfile_write content
  | None => mret tt
  end.

End Methods.

End Http.

(** ** [class ProxyTestHandler(http.server.SimpleHTTPRequestHandler)] *)

Module ProxyTestHandler.
Import Py Os Http.

(** *** The page of [do_GET]

    The f-string [html_content], cut at line ends around the lines that
    hold a replacement field. *)

(** The text of the page up to the connection details. *)
Definition page_head : string :=
  "
<!DOCTYPE html>
<html>
<head>
    <title>Jupyter Server Proxy Test</title>
    <style>
        body {
            font-family: Arial, sans-serif;
            max-width: 800px;
            margin: 50px auto;
            padding: 20px;
            background: linear-gradient(135deg, #667eea 0%, #764ba2 100%);
            color: white;
        }
        .container {
            background: rgba(255, 255, 255, 0.1);
            padding: 30px;
            border-radius: 10px;
            backdrop-filter: blur(10px);
        }
        h1 {
            color: #fff;
            text-align: center;
        }
        .info {
            background: rgba(255, 255, 255, 0.2);
            padding: 15px;
            border-radius: 5px;
            margin: 20px 0;
        }
        .success {
            background: rgba(76, 175, 80, 0.3);
            border-left: 4px solid #4CAF50;
        }
        code {
            background: rgba(0, 0, 0, 0.3);
            padding: 2px 6px;
            border-radius: 3px;
            font-family: 'Courier New', monospace;
        }
        .test-button {
            background: #4CAF50;
            color: white;
            padding: 10px 20px;
            border: none;
            border-radius: 5px;
            cursor: pointer;
            margin: 10px 5px;
        }
        .test-button:hover {
            background: #45a049;
        }
        #api-result {
            margin-top: 20px;
            padding: 10px;
            background: rgba(0, 0, 0, 0.2);
            border-radius: 5px;
            min-height: 50px;
        }
    </style>
</head>
<body>
    <div class=" +:+ dq +:+ "container" +:+ dq +:+ ">
        <h1>🎉 Jupyter Server Proxy Test Page</h1>
        
        <div class=" +:+ dq +:+ "info success" +:+ dq +:+ ">
            <strong>✅ Success!</strong> The proxy is working correctly.
        </div>
        
        <div class=" +:+ dq +:+ "info" +:+ dq +:+ ">
            <h3>Connection Details:</h3>
".

Definition request_path_line (self_path : string) : string :=
  "            <p><strong>Request Path:</strong> <code>" +:+ self_path +:+ "</code></p>" +:+ nl.

Definition server_port_line (server_port : Z) : string :=
  "            <p><strong>Server Port:</strong> <code>" +:+ str_int server_port +:+ "</code></p>" +:+ nl.

Definition proxy_prefix_line (proxy_prefix : string) : string :=
  "            <p><strong>Proxy Prefix:</strong> <code>" +:+ or_ proxy_prefix "Not set (direct access)" +:+ "</code></p>" +:+ nl.

Definition access_url (proxy_prefix : string) (server_port : Z) : string :=
  proxy_prefix +:+ "proxy/" +:+ str_int server_port +:+ "/".

Definition access_url_line (proxy_prefix : string) (server_port : Z) : string :=
  "            <p><strong>Access URL:</strong> <code>" +:+ access_url proxy_prefix server_port +:+ "</code></p>" +:+ nl.

(** From the end of the connection details to the list of variables. *)
Definition page_tests : string :=
  "        </div>
        
        <div class=" +:+ dq +:+ "info" +:+ dq +:+ ">
            <h3>Interactive Tests:</h3>
            <button class=" +:+ dq +:+ "test-button" +:+ dq +:+ " onclick=" +:+ dq +:+ "testApi()" +:+ dq +:+ ">Test API Endpoint</button>
            <button class=" +:+ dq +:+ "test-button" +:+ dq +:+ " onclick=" +:+ dq +:+ "testStatic()" +:+ dq +:+ ">Load Static Resource</button>
            <div id=" +:+ dq +:+ "api-result" +:+ dq +:+ "></div>
        </div>
        
        <div class=" +:+ dq +:+ "info" +:+ dq +:+ ">
            <h3>Environment Variables:</h3>
            <ul>
".

Definition environ_line (environ : gmap string string) (name : string) : string :=
  "                <li><strong>" +:+ name +:+ ":</strong> <code>" +:+ environ_get environ name "Not set" +:+ "</code></li>" +:+ nl.

(** From the end of the list of variables into the script. *)
Definition page_howto : string :=
  "            </ul>
        </div>
        
        <div class=" +:+ dq +:+ "info" +:+ dq +:+ ">
            <h3>How to Use:</h3>
            <ol>
                <li>If you see this page, jupyter-server-proxy is working! ✨</li>
                <li>Try the interactive tests above to verify API routing</li>
                <li>Check the browser console for detailed request information</li>
            </ol>
        </div>
    </div>
    
    <script>
        console.log('Jupyter Server Proxy Test Page loaded');
        console.log('Current URL:', window.location.href);
".

Definition console_prefix_line (proxy_prefix : string) : string :=
  "        console.log('Proxy prefix:', '" +:+ proxy_prefix +:+ "');" +:+ nl.

(** The rest of the script and of the page. *)
Definition page_script : string :=
  "        
        function testApi() {
            const resultDiv = document.getElementById('api-result');
            resultDiv.innerHTML = '<em>Loading...</em>';
            
            fetch('/api/test')
                .then(response => response.json())
                .then(data => {
                    resultDiv.innerHTML = `<strong>API Response:</strong><br><code>${JSON.stringify(data, null, 2)}</code>`;
                })
                .catch(error => {
                    resultDiv.innerHTML = `<strong style=" +:+ dq +:+ "color: #ff6b6b;" +:+ dq +:+ ">Error:</strong> ${error.message}`;
                });
        }
        
        function testStatic() {
            const resultDiv = document.getElementById('api-result');
            resultDiv.innerHTML = '<em>Checking static resource...</em>';
            
            fetch('/static/test.txt')
                .then(response => response.text())
                .then(data => {
                    resultDiv.innerHTML = `<strong>Static Resource:</strong><br><code>${data}</code>`;
                })
                .catch(error => {
                    resultDiv.innerHTML = `<strong style=" +:+ dq +:+ "color: #ff6b6b;" +:+ dq +:+ ">Note:</strong> Static resource not found (expected for basic test)`;
                });
        }
    </script>
</body>
</html>
".

(** The whole f-string. *)
Definition html_content (self_path : string) (server_port : Z)
    (proxy_prefix : string) (environ : gmap string string) : string :=
  page_head
  +:+ request_path_line self_path
  +:+ server_port_line server_port
  +:+ proxy_prefix_line proxy_prefix
  +:+ access_url_line proxy_prefix server_port
  +:+ page_tests
  +:+ environ_line environ "JUPYTERHUB_SERVICE_PREFIX"
  +:+ environ_line environ "JUPYTERHUB_BASE_URL"
  +:+ environ_line environ "JUPYTERHUB_USER"
  +:+ page_howto
  +:+ console_prefix_line proxy_prefix
  +:+ page_script.

(** The prefix derived from JUPYTERHUB_SERVICE_PREFIX:
    [if proxy_prefix and not proxy_prefix.endswith("/"): proxy_prefix += "/"]. *)
Definition proxy_prefix_of (environ : gmap string string) : string :=
  let proxy_prefix := environ_get environ "JUPYTERHUB_SERVICE_PREFIX" EmptyString in
  if truthy proxy_prefix && negb (endswith proxy_prefix "/")
  then proxy_prefix +:+ "/"
  else proxy_prefix.

(** [log_message]: one [print] of the client address and the formatted
    message. *)
Definition log_message (self : handler) (format : string) (args : list value) : M unit :=
  message ← lift (format_ format args);
  on_world (print ("[Proxy Test Server] " +:+ address_string self +:+ " - " +:+ message)).

#[global] Instance ProxyTestHandler_methods : RequestHandler :=
  {| Http.log_message := log_message |}.

(** The mapping the API endpoint answers with. *)
Definition api_response (server_port : Z) (self_path : string) : list (string * value) :=
  [ ("status", VStr "ok");
    ("message", VStr "API endpoint working through proxy");
    ("port", VInt server_port);
    ("path", VStr self_path) ].

Definition do_GET (self : handler) : M unit :=
  let self_path := path (request_of self) in
  if String.eqb self_path "/" || String.eqb self_path "/index.html" then
    send_response self 200 None;;
    send_header "Content-type" "text/html";;
    end_headers;;
    w ← get_world;
    let proxy_prefix := proxy_prefix_of (environ w) in
    server_port ← lift (server_port (server_of self));
    wfile_write (html_content self_path server_port proxy_prefix (environ w))
  else if String.eqb self_path "/api/test" then
    send_response self 200 None;;
    send_header "Content-type" "application/json";;
    end_headers;;
    server_port ← lift (server_port (server_of self));
    wfile_write (str_dict (api_response server_port self_path))
  else
    SimpleHTTPRequestHandler_do_GET self.

End ProxyTestHandler.

(** ** [socketserver.TCPServer] *)

Module SocketServer.
Import Py Os Http.

(** How a call that may block ends. *)
Inductive outcome (A : Type) :=
| Returns (a : A)
| Raises (e : exn)
| RunsForever.
Arguments Returns {A} a.
Arguments Raises {A} e.
Arguments RunsForever {A}.

(** [TCPServer((host, port), Handler)] with the empty host: binds and
    listens; when that fails the
    socket is closed and the exception leaves the constructor. The port is
    taken as the address bound (port 0, where the system picks one, stands
    for itself). *)
Definition TCPServer_init (port : Z) (w : world) : result server * world :=
  match socket_bind port w with
  | Some e => (Raise e, w)
  | None =>
      (Ok {| class_of := TCPServer; server_address := ("0.0.0.0", port) |},
       set_listening w (port :: listening w))
  end.

(** [server_close()], also what leaving a [with] block runs ([__exit__]). *)
Definition server_close (httpd : server) (w : world) : world :=
  socket_close (snd (server_address httpd)) w.

(** The subclasses of [Exception] among the exceptions. *)
Definition is_Exception (e : exn) : bool :=
  match e with
  | KeyboardInterrupt | SystemExit _ => false
  | _ => true
  end.

(** The lines [handle_error] writes for an exception in a handler; of the
    traceback, its last line. *)
Definition traceback (req : request) (e : exn) : list string :=
  [ "----------------------------------------";
    "Exception occurred during processing of request from " +:+ fst (client_address req);
    match e with
    | AttributeError obj attr =>
        "AttributeError: '" +:+ obj +:+ "' object has no attribute '" +:+ attr +:+ "'"
    | OSError _ => "OSError"
    | OverflowError => "OverflowError"
    | ValueError => "ValueError"
    | TypeError => "TypeError"
    | KeyboardInterrupt => "KeyboardInterrupt"
    | SystemExit _ => "SystemExit"
    end;
    "----------------------------------------" ].

(** [_handle_request_noblock] for one accepted GET request, at the time
    it is accepted: the handler runs on a fresh connection; an
    [Exception] it raises is reported on standard error and the
    connection is shut down with what was written. *)
Definition process_request (Handler : handler -> M unit) (httpd : server)
    (req : request) (w : world) : result unit * world :=
  let self := {| request_of := req; server_of := httpd |} in
  let w := arrive w in
  match Handler self (w, no_response) with
  | (Ok _, (w', r)) => (Ok tt, set_served w' (served w' ++ [r]))
  | (Raise e, (w', r)) =>
      let w'' := set_served w' (served w' ++ [r]) in
      if is_Exception e
      then (Ok tt, set_stderr w'' (stderr w'' ++ traceback req e))
      else (Raise e, w'')
  end.

Fixpoint process_requests (Handler : handler -> M unit) (httpd : server)
    (reqs : list request) (w : world) : result unit * world :=
  match reqs with
  | [] => (Ok tt, w)
  | req :: rest =>
      match process_request Handler httpd req w with
      | (Ok _, w') => process_requests Handler httpd rest w'
      | (Raise e, w') => (Raise e, set_incoming w' rest)
      end
  end.

(** [serve_forever()]: on an open socket the requests that come in are
    handled in turn, each in the surroundings of the time it is accepted,
    until an interrupt arrives, if one does. On a closed
    socket no connection is ever accepted: the selector refuses the file
    descriptor -1 with [ValueError] (a loop that had registered the socket
    before it was closed would instead poll it for ever, [accept] failing
    each time). *)
Definition serve_forever (Handler : handler -> M unit) (httpd : server)
    (w : world) : outcome unit * world :=
  if accepts (snd (server_address httpd)) w then
    match process_requests Handler httpd (incoming w) (set_incoming w []) with
    | (Raise e, w') => (Raises e, w')
    | (Ok _, w') =>
        if sigint w' then (Raises KeyboardInterrupt, w') else (RunsForever, w')
    end
  else (Raises ValueError, w).

End SocketServer.

(** ** The module [test_jupyter_proxy] *)

Module TestJupyterProxy.
Import Py Os Http SocketServer.

Definition rule : string :=
  "============================================================".

Definition Handler : handler -> M unit := ProxyTestHandler.do_GET.

(** The body of [serve], the target of the background thread. *)
Definition serve (httpd : server) (w : world) : outcome unit * world :=
  match serve_forever Handler httpd w with
  | (Raises KeyboardInterrupt, w') =>
      (Returns tt, print (nl +:+ "Shutting down test server...") w')
  | other => other
  end.

(** The lines printed once the socket is bound. *)
Definition announce (port : Z) (w : world) : world :=
  let w := print (nl +:+ rule) w in
  let w := print "  Jupyter Server Proxy Test Server" w in
  let w := print rule w in
  let w := print ("  Server running on port " +:+ str_int port) w in
  let w := print ("  Access via proxy: /proxy/" +:+ str_int port +:+ "/") w in
  let prefix := environ_get (environ w) "JUPYTERHUB_SERVICE_PREFIX" EmptyString in
  let w :=
    if truthy prefix then
      let prefix := if negb (endswith prefix "/") then prefix +:+ "/" else prefix in
      print ("  Full URL: " +:+ prefix +:+ "proxy/" +:+ str_int port +:+ "/") w
    else w in
  print (rule +:+ nl) w.

(** [start_test_server(port, background)]. The [with] block closes the
    server on every way out of its body, the [return] of either branch
    included; [except OSError] sees what the constructor or the body
    raised. *)
Definition start_test_server (port : Z) (background : bool) (w : world)
  : outcome (option thread) * world :=
  let '(r, w1) :=
    match TCPServer_init port w with
    | (Raise e, w) => (Raises e, w)
    | (Ok httpd, w) =>
        let w := announce port w in
        let '(r, w) :=
          if background then
            let thread := {| t_port := port; t_daemon := true; t_started := true |} in
            (Returns (Some thread), set_threads w (threads w ++ [thread]))
          else
            match serve_forever Handler httpd w with
            | (Raises KeyboardInterrupt, w) =>
                (Returns None, print (nl +:+ "Shutting down test server...") w)
            | (Raises e, w) => (Raises e, w)
            | (Returns _, w) => (Returns None, w)
            | (RunsForever, w) => (RunsForever, w)
            end in
        match r with
        | RunsForever => (r, w)
        | _ => (r, server_close httpd w)
        end
    end in
  match r with
  | Raises (OSError errno) =>
      if errno =? 48 then
        let w2 := print (nl +:+ "❌ Error: Port " +:+ str_int port +:+ " is already in use.") w1 in
        let w2 := print ("   Try a different port or stop the existing server." +:+ nl) w2 in
        (Returns None, w2)
      else (Raises (OSError errno), w1)
  | _ => (r, w1)
  end.

(** What the background thread does when it is run in [w]. *)
Definition run_thread (t : thread) (w : world) : outcome unit * world :=
  serve {| class_of := TCPServer; server_address := ("0.0.0.0", t_port t) |} w.

(** [create_jupyter_server_config()]. *)
Definition config : string :=
  "
# Add this to ~/.jupyter/jupyter_server_config.py
# to automatically register the test server with jupyter-server-proxy

c.ServerProxy.servers = {
    'proxy-test': {
        'command': ['python', '-m', 'test_jupyter_proxy'],
        'port': 9999,
        'timeout': 30,
        'absolute_url': False,
        'launcher_entry': {
            'enabled': True,
            'title': 'Jupyter Proxy Test',
            'icon_path': '/static/base/images/favicon.ico'
        }
    }
}
".

Definition create_jupyter_server_config (w : world) : string * world :=
  (config, print config w).

(** The script: [if __name__ == "__main__"], with [sys.argv]. *)

(** The three lines of the tip. *)
Definition print_tip (w : world) : world :=
  let w := print (nl +:+ "💡 Tip: Run this in a Jupyter notebook for automatic proxy integration:") w in
  let w := print "   import test_jupyter_proxy" w in
  print ("   test_jupyter_proxy.start_test_server(port=9999)" +:+ nl) w.

(** The tip, then the server in the foreground. *)
Definition run_foreground (port : Z) (w : world) : outcome unit * world :=
  match start_test_server port false (print_tip w) with
  | (Returns _, w') => (Returns tt, w')
  | (Raises e, w') => (Raises e, w')
  | (RunsForever, w') => (RunsForever, w')
  end.

Definition main (argv : list string) (w : world) : outcome unit * world :=
  match argv with
  | _ :: arg :: _ =>
      match int_of_str arg with
      | Ok port => run_foreground port w
      | Raise ValueError =>
          let w := print ("Invalid port number: " +:+ arg) w in
          let w := print "Usage: python test_jupyter_proxy.py [port]" w in
          (Raises (SystemExit 1), w)
      | Raise e => (Raises e, w)
      end
  | _ => run_foreground 9999 w
  end.

(** The exit status of the process, when it ends. *)
Definition exit_status (r : outcome unit) : option Z :=
  match r with
  | Returns _ => Some 0
  | Raises (SystemExit code) => Some code
  | Raises _ => Some 1
  | RunsForever => None
  end.

End TestJupyterProxy.

(** ** [.jupyter/jupyter_server_config.py] *)

Module JupyterServerConfig.

(** The Python literals of the file. A [dict] keeps its items in the
    order written. *)
#[warnings="-register-all"]
Inductive pyobj :=
| PStr (s : string)
| PInt (n : Z)
| PBool (b : bool)
| PList (items : list pyobj)
| PDict (items : list (string * pyobj)).

(** [d[key]]. *)
Fixpoint item (key : string) (items : list (string * pyobj)) : option pyobj :=
  match items with
  | [] => None
  | (k, v) :: rest => if String.eqb k key then Some v else item key rest
  end.

(** [d[k1][k2]...]. *)
Fixpoint at_path (keys : list string) (o : pyobj) : option pyobj :=
  match keys with
  | [] => Some o
  | k :: rest =>
      match o with
      | PDict items =>
          match item k items with
          | Some v => at_path rest v
          | None => None
          end
      | _ => None
      end
  end.

(** [c.ServerProxy.servers]. *)
Definition servers : pyobj :=
  PDict [
    ("proxy-test", PDict [
      ("command", PList [PStr "python"; PStr "-m"; PStr "test_jupyter_proxy"]);
      ("port", PInt 9999);
      ("timeout", PInt 30);
      ("absolute_url", PBool false);
      ("launcher_entry", PDict [("enabled", PBool true); ("title", PStr "Jupyter Proxy Test")])
    ])
  ].

End JupyterServerConfig.

(** ** What the properties speak of *)

Module Spec.
Import Py Os Http.

(** The line [log_request] prints for a request and a status code. *)
Definition request_log_line (self : handler) (code : Z) : string :=
  "[Proxy Test Server] " +:+ address_string self +:+ " - "
  +:+ dq +:+ requestline (request_of self) +:+ dq +:+ " " +:+ str_int code +:+ " -".

(** The line [log_error] prints from [send_error]. *)
Definition error_log_line (self : handler) (code : Z) (message : string) : string :=
  "[Proxy Test Server] " +:+ address_string self +:+ " - "
  +:+ "code " +:+ str_int code +:+ ", message " +:+ message.

(** The headers [send_response] sends before those of the caller. *)
Definition standard_headers (w : world) : list (string * string) :=
  [("Server", version_string); ("Date", clock w)].

(** The name of the service-prefix variable. *)
Definition SERVICE_PREFIX : string := "JUPYTERHUB_SERVICE_PREFIX".

(** The "Proxy Prefix" field of the page when no prefix is known. *)
Definition proxy_prefix_not_set : string :=
  "<p><strong>Proxy Prefix:</strong> <code>Not set (direct access)</code></p>".

(** The "Access URL" field of the page for a given URL. *)
Definition access_url_field (url : string) : string :=
  "<p><strong>Access URL:</strong> <code>" +:+ url +:+ "</code></p>".

(** The text the API endpoint would send as JSON: double-quoted. *)
Definition json_status_ok : string :=
  dq +:+ "status" +:+ dq +:+ ": " +:+ dq +:+ "ok" +:+ dq.

(** A handler for a request on a given server. *)
Definition handler_for (path : string) (srv : server) : handler :=
  {| request_of :=
       {| client_address := ("127.0.0.1", 50000);
          requestline := "GET " +:+ path +:+ " HTTP/1.1";
          path := path |};
     server_of := srv |}.

(** A process on [pl] with the given environment, ports in use and
    requests to come; nothing printed or served yet. *)
Definition world_of (pl : platform) (environ : gmap string string)
    (in_use : list Z) (incoming : list request) (sigint : bool) : world :=
  {| platform_of := pl; environ := environ; filesystem := fun _ => NoEntry;
     clock := "Thu, 01 Jan 1970 00:00:00 GMT"; privileged := false;
     in_use := in_use; listening := []; threads := [];
     incoming := incoming; sigint := sigint;
     stdout := []; stderr := []; served := []; later := [] |}.


(** [w] with the surroundings the incoming requests will find. *)
Definition with_later (w : world)
    (times : list (gmap string string * (string -> fs_entry) * string)) : world :=
  {| platform_of := platform_of w; environ := environ w; filesystem := filesystem w;
     clock := clock w; privileged := privileged w; in_use := in_use w;
     listening := listening w; threads := threads w; incoming := incoming w;
     sigint := sigint w; stdout := stdout w; stderr := stderr w; served := served w;
     later := times |}.

(** The paths that get the page. *)
Definition home_paths (p : string) : Prop := p = "/" \/ p = "/index.html".

(** Status line and log of the base handler, by what the path leads to;
    no status line when the path cannot be opened. *)
Definition fallback_code (entry : fs_entry) : option (Z * string) :=
  match entry with
  | NoEntry => Some (404, "File not found")
  | DirectoryRedirect _ => Some (301, "Moved Permanently")
  | NotModified => Some (304, "Not Modified")
  | RegularFile _ _ _ | DirectoryListing _ => Some (200, "OK")
  | Unopenable => None
  end.

Definition fallback_log (self : handler) (entry : fs_entry) (w : world) : world :=
  match entry with
  | NoEntry =>
      print (request_log_line self 404) (print (error_log_line self 404 "File not found") w)
  | Unopenable => w
  | _ =>
      match fallback_code entry with
      | Some (code, _) => print (request_log_line self code) w
      | None => w
      end
  end.

(** [w'] is [w] after some printing. *)
Definition only_printed (w w' : world) : Prop :=
  exists lines, w' = set_stdout w (stdout w ++ lines).

(** Two states of the process in which a handler reads the same things:
    environment, working directory and date. *)
Definition same_inputs (w w' : world) : Prop :=
  environ w = environ w' /\ filesystem w = filesystem w' /\ clock w = clock w'.

(** Two handler computations that, started in states with the same inputs
    and on the same connection, end alike: same exception or results
    related by [R], same connection, and again the same inputs. *)
Definition alike {A : Type} (R : A -> A -> Prop) (c1 c2 : M A) : Prop :=
  forall (w1 w2 : world) (r : response),
    same_inputs w1 w2 ->
    match c1 (w1, r), c2 (w2, r) with
    | (Ok a1, (w1', r1)), (Ok a2, (w2', r2)) =>
        R a1 a2 /\ same_inputs w1' w2' /\ r1 = r2
    | (Raise e1, (w1', r1)), (Raise e2, (w2', r2)) =>
        e1 = e2 /\ same_inputs w1' w2' /\ r1 = r2
    | _, _ => False
    end.

(** What a connection receives for a request handled in [w]. *)
Definition answer_to (httpd : server) (w : world) (req : request) : response :=
  snd (snd (ProxyTestHandler.do_GET {| request_of := req; server_of := httpd |}
              (w, no_response))).

(** The process as request number [n] (from 0) finds it when it is
    accepted. *)
Fixpoint at_arrival (n : nat) (w : world) : world :=
  match n with
  | O => arrive w
  | S n => at_arrival n (arrive w)
  end.

(** What the connections receive for requests that come in one after the
    other, each handled in the surroundings of the time it is accepted. *)
Fixpoint answers_to (httpd : server) (w : world) (reqs : list request) : list response :=
  match reqs with
  | [] => []
  | req :: rest => answer_to httpd (arrive w) req :: answers_to httpd (arrive w) rest
  end.

(** The fields of the page. *)
Definition request_path_field (self_path : string) : string :=
  "<p><strong>Request Path:</strong> <code>" +:+ self_path +:+ "</code></p>".

Definition server_port_field (port : Z) : string :=
  "<p><strong>Server Port:</strong> <code>" +:+ str_int port +:+ "</code></p>".

Definition proxy_prefix_field (shown : string) : string :=
  "<p><strong>Proxy Prefix:</strong> <code>" +:+ shown +:+ "</code></p>".

Definition environment_item (name shown : string) : string :=
  "<li><strong>" +:+ name +:+ ":</strong> <code>" +:+ shown +:+ "</code></li>".

Definition console_prefix_statement (proxy_prefix : string) : string :=
  "console.log('Proxy prefix:', '" +:+ proxy_prefix +:+ "');".

(** The headers of the two answers the handler builds itself. *)
Definition own_headers (w : world) (ctype : string) : list (string * string) :=
  [("Server", version_string); ("Date", clock w); ("Content-type", ctype)].

(** [w'] is [w] but for what was printed and served: same inputs, same
    sockets, threads, queue and pending interrupt. *)
Definition undisturbed (w w' : world) : Prop :=
  same_inputs w w'
  /\ platform_of w' = platform_of w
  /\ privileged w' = privileged w
  /\ in_use w' = in_use w
  /\ listening w' = listening w
  /\ threads w' = threads w
  /\ incoming w' = incoming w
  /\ sigint w' = sigint w.

(** The server object [start_test_server] makes for a port. *)
Definition httpd_on (port : Z) : server :=
  {| class_of := TCPServer; server_address := ("0.0.0.0", port) |}.

(** A value with the separator the handler and the banner add to it. *)
Definition with_slash (v : string) : string :=
  if truthy v && negb (endswith v "/") then v +:+ "/" else v.

(** The lines [start_test_server] prints once the socket is bound, for a
    port and an environment. *)
Definition banner (port : Z) (environ : gmap string string) : list string :=
  let prefix := ProxyTestHandler.proxy_prefix_of environ in
  [ nl +:+ TestJupyterProxy.rule;
    "  Jupyter Server Proxy Test Server";
    TestJupyterProxy.rule;
    "  Server running on port " +:+ str_int port;
    "  Access via proxy: /proxy/" +:+ str_int port +:+ "/" ]
  ++ (if truthy prefix
      then ["  Full URL: " +:+ ProxyTestHandler.access_url prefix port]
      else [])
  ++ [TestJupyterProxy.rule +:+ nl].

(** Ports a socket cannot be bound to at all. *)
Definition out_of_range (port : Z) : Prop := port < 0 \/ 65535 < port.

End Spec.

(** * Properties *)

Import Py Os Http SocketServer TestJupyterProxy Spec.

(** ** Strings *)

Section Strings.

Lemma append_nil_l (s : string) : EmptyString +:+ s = s.
Proof. reflexivity. Qed.

Lemma append_cons (x : ascii) (a b : string) :
  String x a +:+ b = String x (a +:+ b).
Proof. reflexivity. Qed.

Lemma append_assoc (a b c : string) : (a +:+ b) +:+ c = a +:+ (b +:+ c).
Proof.
  induction a as [|x a IH].
  - reflexivity.
  - rewrite !append_cons. now rewrite IH.
Qed.

Lemma append_empty_r (a : string) : a +:+ EmptyString = a.
Proof.
  induction a as [|x a IH]; [reflexivity|].
  rewrite append_cons. now rewrite IH.
Qed.

Lemma is_infix_refl (s : string) : is_infix s s.
Proof.
  exists EmptyString, EmptyString.
  now rewrite append_nil_l, append_empty_r.
Qed.

Lemma is_infix_append_l (n a b : string) : is_infix n a -> is_infix n (a +:+ b).
Proof.
  intros (p & q & ->). exists p, (q +:+ b).
  now rewrite !append_assoc.
Qed.

Lemma is_infix_append_r (n a b : string) : is_infix n b -> is_infix n (a +:+ b).
Proof.
  intros (p & q & ->). exists (a +:+ p), q.
  now rewrite !append_assoc.
Qed.

Lemma prefix_split (n h : string) :
  String.prefix n h = true -> exists rest, h = n +:+ rest.
Proof.
  revert h. induction n as [|x n IH]; intros h Hp.
  - exists h. reflexivity.
  - destruct h as [|y h]; simpl in Hp; [discriminate|].
    destruct (ascii_dec x y) as [->|]; [|discriminate].
    destruct (IH _ Hp) as [rest ->]. now exists rest.
Qed.

Lemma prefix_append (n rest : string) : String.prefix n (n +:+ rest) = true.
Proof.
  induction n as [|x n IH].
  - rewrite append_nil_l. now destruct rest.
  - rewrite append_cons. simpl.
    destruct (ascii_dec x x); [assumption | congruence].
Qed.

Lemma prefix_contains (n h : string) :
  String.prefix n h = true -> contains n h = true.
Proof.
  intros Hp. destruct h; cbn [contains]; rewrite Hp; reflexivity.
Qed.

(** The test [needle in hay] decides [is_infix]. *)
Lemma contains_is_infix (n h : string) : contains n h = true <-> is_infix n h.
Proof.
  split.
  - induction h as [|y h IH]; intros Hc.
    + destruct n; [apply is_infix_refl | discriminate].
    + cbn [contains] in Hc. apply orb_true_iff in Hc as [Hp|Hc].
      * destruct (prefix_split _ _ Hp) as [rest ->].
        exists EmptyString, rest. reflexivity.
      * destruct (IH Hc) as (p & q & ->). now exists (String y p), q.
  - intros (p & q & ->). induction p as [|y p IH].
    + rewrite append_nil_l. apply prefix_contains, prefix_append.
    + rewrite append_cons. simpl. rewrite IH. apply orb_true_r.
Qed.

Lemma not_contains_not_infix (n h : string) : contains n h = false -> ~ is_infix n h.
Proof.
  intros Hc Hi. apply contains_is_infix in Hi. congruence.
Qed.

End Strings.

(** ** Running the handler *)

Section Handler.

Lemma format_request (rl code : string) :
  format_ (dq +:+ "%s" +:+ dq +:+ " %s %s") [VStr rl; VStr code; VStr "-"]
  = Ok (dq +:+ rl +:+ dq +:+ " " +:+ code +:+ " -").
Proof. reflexivity. Qed.

Lemma format_error (code : Z) (message : string) :
  format_ "code %d, message %s" [VInt code; VStr message]
  = Ok ("code " +:+ str_int code +:+ ", message " +:+ message).
Proof. cbn. rewrite append_empty_r. reflexivity. Qed.

Lemma log_request_run (self : handler) (code : Z) (w : world) (r : response) :
  log_request self code (w, r) = (Ok tt, (print (request_log_line self code) w, r)).
Proof.
  unfold log_request, Http.log_message, ProxyTestHandler.ProxyTestHandler_methods, ProxyTestHandler.log_message.
  unfold mbind, M_bind, bind, lift. rewrite format_request. reflexivity.
Qed.

Lemma log_error_run (self : handler) (code : Z) (message : string) (w : world) (r : response) :
  log_error self "code %d, message %s" [VInt code; VStr message] (w, r)
  = (Ok tt, (print (error_log_line self code message) w, r)).
Proof.
  unfold log_error, Http.log_message, ProxyTestHandler.ProxyTestHandler_methods, ProxyTestHandler.log_message.
  unfold mbind, M_bind, bind, lift. rewrite format_error. reflexivity.
Qed.

Lemma send_response_run (self : handler) (code : Z) (message : option string) (w : world) (r : response) :
  send_response self code message (w, r)
  = (Ok tt,
     (print (request_log_line self code) w,
      {| status := Some (code, match message with
                               | Some m => m
                               | None => match responses code with
                                         | Some (short, _) => short
                                         | None => EmptyString
                                         end
                               end);
         headers := (headers r ++ [("Server", version_string)]) ++ [("Date", clock w)];
         headers_ended := headers_ended r;
         body := body r |})).
Proof.
  unfold send_response. unfold mbind, M_bind, bind.
  rewrite log_request_run. reflexivity.
Qed.

Lemma do_GET_home_run (self : handler) (w : world) :
  home_paths (path (request_of self)) ->
  ProxyTestHandler.do_GET self (w, no_response) =
  let w' := print (request_log_line self 200) w in
  let sent (body : string) :=
    {| status := Some (200, "OK");
       headers := standard_headers w ++ [("Content-type", "text/html")];
       headers_ended := true;
       body := body |} in
  match server_port (server_of self) with
  | Ok port =>
      (Ok tt, (w', sent (ProxyTestHandler.html_content (path (request_of self)) port
                           (ProxyTestHandler.proxy_prefix_of (environ w)) (environ w))))
  | Raise e => (Raise e, (w', sent EmptyString))
  end.
Proof.
  intros Hp. unfold ProxyTestHandler.do_GET.
  assert (Ht : String.eqb (path (request_of self)) "/"
               || String.eqb (path (request_of self)) "/index.html" = true).
  { destruct Hp as [-> | ->]; reflexivity. }
  rewrite Ht. unfold mbind, M_bind, bind. rewrite send_response_run.
  cbn -[ProxyTestHandler.html_content ProxyTestHandler.proxy_prefix_of].
  destruct (server_port (server_of self)); reflexivity.
Qed.

Lemma do_GET_api_run (self : handler) (w : world) :
  path (request_of self) = "/api/test" ->
  ProxyTestHandler.do_GET self (w, no_response) =
  let w' := print (request_log_line self 200) w in
  let sent (body : string) :=
    {| status := Some (200, "OK");
       headers := standard_headers w ++ [("Content-type", "application/json")];
       headers_ended := true;
       body := body |} in
  match server_port (server_of self) with
  | Ok port => (Ok tt, (w', sent (str_dict (ProxyTestHandler.api_response port "/api/test"))))
  | Raise e => (Raise e, (w', sent EmptyString))
  end.
Proof.
  intros Hp. unfold ProxyTestHandler.do_GET. rewrite Hp.
  change (String.eqb "/api/test" "/" || String.eqb "/api/test" "/index.html") with false.
  change (String.eqb "/api/test" "/api/test") with true.
  cbv iota. unfold mbind, M_bind, bind. rewrite send_response_run.
  cbn -[str_dict]. destruct (server_port (server_of self)); reflexivity.
Qed.

Lemma do_GET_other_run (self : handler) :
  path (request_of self) <> "/" ->
  path (request_of self) <> "/index.html" ->
  path (request_of self) <> "/api/test" ->
  ProxyTestHandler.do_GET self = SimpleHTTPRequestHandler_do_GET self.
Proof.
  intros H1 H2 H3. unfold ProxyTestHandler.do_GET.
  apply String.eqb_neq in H1, H2, H3. rewrite H1, H2, H3. reflexivity.
Qed.

Lemma base_do_GET_run (self : handler) (w : world) :
  exists res r,
    SimpleHTTPRequestHandler_do_GET self (w, no_response)
    = (res, (fallback_log self (filesystem w (path (request_of self))) w, r))
    /\ status r = fallback_code (filesystem w (path (request_of self)))
    /\ (filesystem w (path (request_of self)) = Unopenable ->
        res = Raise ValueError /\ r = no_response)
    /\ (filesystem w (path (request_of self)) <> Unopenable ->
        res = Ok tt /\ headers_ended r = true).
Proof.
  unfold SimpleHTTPRequestHandler_do_GET, send_head, send_error.
  unfold mbind, M_bind, bind, get_world. cbn [fst snd].
  destruct (filesystem w (path (request_of self)))
    as [|ctype content modified| |location|listing|];
    rewrite ?log_error_run, ?send_response_run; cbn -[error_message_format];
    eexists _, _; (split; [reflexivity|]); (split; [reflexivity|]);
    split; intros H; try discriminate; try contradiction; split; reflexivity.
Qed.

Lemma print_twice (a b : string) (w : world) :
  print b (print a w) = set_stdout w (stdout w ++ [a] ++ [b]).
Proof.
  unfold print, set_stdout. cbn. now rewrite <- app_assoc.
Qed.

Lemma server_port_cases (srv : server) :
  (exists port, server_port srv = Ok port)
  \/ server_port srv = Raise (AttributeError "TCPServer" "server_port").
Proof.
  unfold server_port. destruct (class_of srv); [right | left]; eauto.
Qed.

Lemma set_stdout_nothing (w : world) : set_stdout w (stdout w ++ []) = w.
Proof. destruct w. unfold set_stdout. cbn. now rewrite app_nil_r. Qed.

(** What handling one GET request does to the process: it prints, and
    nothing else. When a status line is sent, the last line printed is the
    log line of the request; the handler ends normally or with the missing
    attribute. When none is sent, the path could not be opened: nothing
    is printed or sent and the handler ends with [ValueError]. *)
Lemma do_GET_effect (self : handler) (w : world) :
  exists res lines r,
    ProxyTestHandler.do_GET self (w, no_response)
    = (res, (set_stdout w (stdout w ++ lines), r))
    /\ match status r with
       | Some (code, _) =>
           (res = Ok tt \/ res = Raise (AttributeError "TCPServer" "server_port"))
           /\ exists before,
                lines = (before ++ [request_log_line self code])%list
                /\ (before = [] \/ before = [error_log_line self 404 "File not found"])
       | None =>
           res = Raise ValueError /\ lines = [] /\ r = no_response
           /\ filesystem w (path (request_of self)) = Unopenable
           /\ ProxyTestHandler.do_GET self = SimpleHTTPRequestHandler_do_GET self
       end.
Proof.
  destruct (string_dec (path (request_of self)) "/") as [H1|H1];
    [|destruct (string_dec (path (request_of self)) "/index.html") as [H2|H2]].
  1,2: rewrite do_GET_home_run by (unfold home_paths; auto); cbv zeta;
       destruct (server_port_cases (server_of self)) as [[port ->] | ->];
       eexists _, [_], _; (split; [reflexivity|]); cbn [status];
       (split; [auto | exists []; auto]).
  destruct (string_dec (path (request_of self)) "/api/test") as [H3|H3].
  - rewrite do_GET_api_run by assumption. cbv zeta.
    destruct (server_port_cases (server_of self)) as [[port ->] | ->];
      eexists _, [_], _; (split; [reflexivity|]); cbn [status];
      (split; [auto | exists []; auto]).
  - rewrite (do_GET_other_run self H1 H2 H3).
    destruct (base_do_GET_run self w) as (res & r & -> & Hst & Hbad & Hgood).
    destruct (filesystem w (path (request_of self)))
      as [|ctype content modified| |location|listing|] eqn:Hfs;
      cbn [fallback_log fallback_code] in *.
    1-5: destruct Hgood as [-> _]; [discriminate|].
    + rewrite print_twice. eexists _, _, _. split; [reflexivity|]. rewrite Hst.
      split; [auto | exists [error_log_line self 404 "File not found"]; auto].
    + eexists _, [_], _. split; [reflexivity|]. rewrite Hst.
      split; [auto | exists []; auto].
    + eexists _, [_], _. split; [reflexivity|]. rewrite Hst.
      split; [auto | exists []; auto].
    + eexists _, [_], _. split; [reflexivity|]. rewrite Hst.
      split; [auto | exists []; auto].
    + eexists _, [_], _. split; [reflexivity|]. rewrite Hst.
      split; [auto | exists []; auto].
    + destruct Hbad as [-> ->]; [reflexivity|].
      exists (Raise ValueError), [], no_response. rewrite set_stdout_nothing.
      split; [reflexivity|]. cbn [status no_response]. auto.
Qed.

End Handler.

(** ** The page *)

Section Page.

Lemma page_has_proxy_prefix_line (self_path : string) (server_port : Z)
    (proxy_prefix : string) (environ : gmap string string) (field : string) :
  is_infix field (ProxyTestHandler.proxy_prefix_line proxy_prefix) ->
  is_infix field (ProxyTestHandler.html_content self_path server_port proxy_prefix environ).
Proof.
  intros Hf. unfold ProxyTestHandler.html_content.
  do 3 apply is_infix_append_r. now apply is_infix_append_l.
Qed.

Lemma page_has_access_url_line (self_path : string) (server_port : Z)
    (proxy_prefix : string) (environ : gmap string string) (field : string) :
  is_infix field (ProxyTestHandler.access_url_line proxy_prefix server_port) ->
  is_infix field (ProxyTestHandler.html_content self_path server_port proxy_prefix environ).
Proof.
  intros Hf. unfold ProxyTestHandler.html_content.
  do 4 apply is_infix_append_r. now apply is_infix_append_l.
Qed.

Lemma proxy_prefix_unset (environ : gmap string string) :
  environ !! SERVICE_PREFIX = None ->
  ProxyTestHandler.proxy_prefix_of environ = EmptyString.
Proof.
  intros Hu. unfold ProxyTestHandler.proxy_prefix_of, environ_get.
  fold SERVICE_PREFIX. now rewrite Hu.
Qed.

Lemma not_set_line : is_infix proxy_prefix_not_set (ProxyTestHandler.proxy_prefix_line EmptyString).
Proof. apply contains_is_infix. vm_compute. reflexivity. Qed.

(** C5. When JUPYTERHUB_SERVICE_PREFIX is unset, the page of [/] and
    [/index.html] has a "Proxy Prefix" field that reads
    "Not set (direct access)", whatever the path and the port it is
    rendered with. The handler answers the GET with status 200 and
    content type text/html on every server object; whether the page
    follows depends on the class of the server: an [HTTPServer] carries
    its port and the page with the field is sent, the [TCPServer] that
    [start_test_server] makes does not, the handler ends with
    [AttributeError] and the body stays empty, without the field. *)
Theorem C5_not_set_field_needs_server_port (self : handler) (w : world) :
  home_paths (path (request_of self)) ->
  environ w !! SERVICE_PREFIX = None ->
  (forall (self_path : string) (port : Z),
     is_infix proxy_prefix_not_set
       (ProxyTestHandler.html_content self_path port
          (ProxyTestHandler.proxy_prefix_of (environ w)) (environ w)))
  /\ exists res w' r,
       ProxyTestHandler.do_GET self (w, no_response) = (res, (w', r))
       /\ status r = Some (200, "OK")
       /\ In ("Content-type", "text/html") (headers r)
       /\ match class_of (server_of self) with
          | HTTPServer =>
              res = Ok tt
              /\ body r = ProxyTestHandler.html_content (path (request_of self))
                            (snd (server_address (server_of self)))
                            (ProxyTestHandler.proxy_prefix_of (environ w)) (environ w)
              /\ is_infix proxy_prefix_not_set (body r)
          | TCPServer =>
              res = Raise (AttributeError "TCPServer" "server_port")
              /\ body r = EmptyString
              /\ ~ is_infix proxy_prefix_not_set (body r)
          end.
Proof.
  intros Hp Hu.
  assert (Hpage : forall (self_path : string) (port : Z),
             is_infix proxy_prefix_not_set
               (ProxyTestHandler.html_content self_path port
                  (ProxyTestHandler.proxy_prefix_of (environ w)) (environ w))).
  { intros self_path port. rewrite (proxy_prefix_unset _ Hu).
    apply page_has_proxy_prefix_line, not_set_line. }
  split; [exact Hpage|].
  rewrite (do_GET_home_run self w Hp). cbv zeta. unfold server_port.
  destruct (class_of (server_of self)); eexists _, _, _; (split; [reflexivity|]);
    cbn [status headers body]; (split; [reflexivity|]);
    (split; [apply in_app_iff; right; now left|]).
  - split; [reflexivity|]. split; [reflexivity|].
    apply not_contains_not_infix. reflexivity.
  - split; [reflexivity|]. split; [reflexivity|]. apply Hpage.
Qed.

Lemma C5_not_set_field_needs_server_port_witness :
  exists w' r,
    ProxyTestHandler.do_GET (handler_for "/" (httpd_on 9999))
      (world_of Linux ∅ [] [] false, no_response)
    = (Raise (AttributeError "TCPServer" "server_port"), (w', r))
    /\ status r = Some (200, "OK")
    /\ body r = EmptyString
    /\ ~ is_infix proxy_prefix_not_set (body r).
Proof.
  destruct (C5_not_set_field_needs_server_port
              (handler_for "/" (httpd_on 9999)) (world_of Linux ∅ [] [] false))
    as [_ (res & w' & r & Hrun & Hst & _ & Hclass)].
  - left. reflexivity.
  - reflexivity.
  - cbn [class_of server_of handler_for httpd_on] in Hclass.
    destruct Hclass as (-> & Hbody & Hnot).
    exists w', r. repeat split; assumption.
Defined.

End Page.

(** ** The derived prefix *)

Section Prefix.

Lemma length_append (a b : string) :
  String.length (a +:+ b) = (String.length a + String.length b)%nat.
Proof.
  induction a as [|x a IH]; [reflexivity|].
  rewrite append_cons. simpl. now rewrite IH.
Qed.

Lemma substring_all (s : string) : substring 0 (String.length s) s = s.
Proof.
  induction s as [|x s IH]; [reflexivity|]. simpl. now rewrite IH.
Qed.

Lemma substring_skip (p s : string) (m : nat) :
  substring (String.length p) m (p +:+ s) = substring 0 m s.
Proof.
  induction p as [|x p IH]; [reflexivity|].
  rewrite append_cons. simpl. exact IH.
Qed.

Lemma substring_split (s : string) (k : nat) :
  (k <= String.length s)%nat ->
  s = substring 0 k s +:+ substring k (String.length s - k) s.
Proof.
  revert k. induction s as [|x s IH]; intros k Hk.
  - destruct k; [reflexivity | simpl in Hk; lia].
  - destruct k as [|k].
    + rewrite Nat.sub_0_r, substring_all. reflexivity.
    + simpl in Hk. simpl substring. rewrite append_cons.
      f_equal. apply IH. lia.
Qed.

(** [endswith] holds exactly of the strings that are something followed by
    the suffix. *)
Lemma endswith_spec (s suffix : string) :
  endswith s suffix = true <-> exists p, s = p +:+ suffix.
Proof.
  unfold endswith. split.
  - intros He. apply andb_true_iff in He as [Hl He].
    apply Nat.leb_le in Hl. apply String.eqb_eq in He.
    exists (substring 0 (String.length s - String.length suffix) s).
    assert (Hsplit := substring_split s (String.length s - String.length suffix)
                        ltac:(lia)).
    replace (String.length s - (String.length s - String.length suffix))%nat
      with (String.length suffix) in Hsplit by lia.
    now rewrite He in Hsplit.
  - intros [p ->]. rewrite length_append.
    apply andb_true_iff. split.
    + apply Nat.leb_le. lia.
    + replace (String.length p + String.length suffix - String.length suffix)%nat
        with (String.length p) by lia.
      rewrite substring_skip, substring_all. apply String.eqb_refl.
Qed.

Lemma proxy_prefix_set (environ : gmap string string) (v : string) :
  environ !! SERVICE_PREFIX = Some v ->
  ProxyTestHandler.proxy_prefix_of environ
  = if truthy v && negb (endswith v "/") then v +:+ "/" else v.
Proof.
  intros Hs. unfold ProxyTestHandler.proxy_prefix_of, environ_get.
  fold SERVICE_PREFIX. now rewrite Hs.
Qed.

(** C4, as stated, fails for a variable set to the empty string: it is
    set, it does not end with a separator, and no separator is appended. *)
Lemma C4_counterexample :
  let environ : gmap string string := {[ SERVICE_PREFIX := EmptyString ]} in
  environ !! SERVICE_PREFIX = Some EmptyString
  /\ ~ (exists p, EmptyString = p +:+ "/")
  /\ ProxyTestHandler.proxy_prefix_of environ <> EmptyString +:+ "/".
Proof.
  cbv zeta. split; [reflexivity|]. split.
  - intros [p Hp]. destruct p; discriminate.
  - vm_compute. discriminate.
Qed.

(** C4, amended. The prefix derived from JUPYTERHUB_SERVICE_PREFIX is empty
    when the variable is unset or set to the empty string, the value
    followed by "/" when the value is not empty and does not end with "/",
    and the value itself when it ends with "/". With the value "foo" the
    access URL of the page is foo/proxy/<port>/, and the page holds it in
    its "Access URL" field. *)
Theorem C4_proxy_prefix (environ : gmap string string) :
  (environ !! SERVICE_PREFIX = None ->
     ProxyTestHandler.proxy_prefix_of environ = EmptyString)
  /\ (environ !! SERVICE_PREFIX = Some EmptyString ->
     ProxyTestHandler.proxy_prefix_of environ = EmptyString)
  /\ (forall v, environ !! SERVICE_PREFIX = Some v ->
        v <> EmptyString -> ~ (exists p, v = p +:+ "/") ->
        ProxyTestHandler.proxy_prefix_of environ = v +:+ "/")
  /\ (forall v, environ !! SERVICE_PREFIX = Some v ->
        (exists p, v = p +:+ "/") ->
        ProxyTestHandler.proxy_prefix_of environ = v)
  /\ (environ !! SERVICE_PREFIX = Some "foo" ->
      forall (port : Z) (self_path : string),
        ProxyTestHandler.access_url (ProxyTestHandler.proxy_prefix_of environ) port
        = "foo/proxy/" +:+ str_int port +:+ "/"
        /\ is_infix (access_url_field ("foo/proxy/" +:+ str_int port +:+ "/"))
             (ProxyTestHandler.html_content self_path port
                (ProxyTestHandler.proxy_prefix_of environ) environ)).
Proof.
  split; [apply proxy_prefix_unset|].
  split; [intros Hs; now rewrite (proxy_prefix_set _ _ Hs)|].
  split; [|split].
  - intros v Hs Hne Hns. rewrite (proxy_prefix_set _ _ Hs).
    destruct v as [|c v]; [congruence|]. cbn [truthy andb].
    destruct (endswith (String c v) "/") eqn:He; [|reflexivity].
    apply endswith_spec in He. contradiction.
  - intros v Hs He. rewrite (proxy_prefix_set _ _ Hs).
    apply endswith_spec in He. rewrite He, andb_false_r. reflexivity.
  - intros Hs port self_path. rewrite (proxy_prefix_set _ _ Hs).
    change (truthy "foo" && negb (endswith "foo" "/")) with true. cbv iota.
    split; [reflexivity|].
    apply page_has_access_url_line.
    exists "            ", nl.
    unfold ProxyTestHandler.access_url_line, ProxyTestHandler.access_url, access_url_field.
    rewrite !append_assoc. reflexivity.
Qed.

Lemma C4_proxy_prefix_witness :
  ProxyTestHandler.access_url
    (ProxyTestHandler.proxy_prefix_of {[ SERVICE_PREFIX := "foo" ]}) 9999
  = "foo/proxy/9999/"
  /\ ProxyTestHandler.proxy_prefix_of {[ SERVICE_PREFIX := "a/b" ]} = "a/b/"
  /\ ProxyTestHandler.proxy_prefix_of {[ SERVICE_PREFIX := "a/" ]} = "a/".
Proof.
  split; [|split].
  - destruct (C4_proxy_prefix {[ SERVICE_PREFIX := "foo" ]}) as (_ & _ & _ & _ & H).
    destruct (H eq_refl 9999 "/") as [Hu _]. exact Hu.
  - destruct (C4_proxy_prefix {[ SERVICE_PREFIX := "a/b" ]}) as (_ & _ & H & _).
    apply (H "a/b" eq_refl); [discriminate|].
    intros [p Hp]. apply (f_equal (fun s => endswith s "/")) in Hp.
    rewrite (proj2 (endswith_spec (p +:+ "/") "/")) in Hp by eauto. discriminate.
  - destruct (C4_proxy_prefix {[ SERVICE_PREFIX := "a/" ]}) as (_ & _ & _ & H & _).
    apply (H "a/" eq_refl). now exists "a".
Defined.

End Prefix.

(** ** The API endpoint *)

Section Api.

Lemma has_char_append (c : ascii) (a b : string) :
  has_char c (a +:+ b) = has_char c a || has_char c b.
Proof.
  unfold has_char. induction a as [|x a IH]; [reflexivity|].
  rewrite append_cons. simpl. rewrite IH. apply orb_assoc.
Qed.

Lemma missing_char_not_contained (c : ascii) (n h : string) :
  has_char c h = false -> contains (String c n) h = false.
Proof.
  unfold has_char. induction h as [|y h IH]; intros Hh; [reflexivity|].
  simpl in Hh. apply orb_false_iff in Hh as [Hy Hh].
  cbn [contains String.prefix]. rewrite (IH Hh), orb_false_r.
  destruct (ascii_dec c y) as [->|]; [|reflexivity].
  now rewrite Ascii.eqb_refl in Hy.
Qed.

Lemma uint_digits_no_quote (d : Decimal.uint) :
  has_char (ascii_of_nat 34) (NilEmpty.string_of_uint d) = false.
Proof.
  induction d; simpl; try assumption; reflexivity.
Qed.

(** The decimal text of an integer holds no double quote. *)
Lemma str_int_no_quote (n : Z) : has_char (ascii_of_nat 34) (str_int n) = false.
Proof.
  unfold str_int, NilZero.string_of_int, NilZero.string_of_uint.
  destruct (Z.to_int n) as [d|d]; destruct d;
    try reflexivity; apply uint_digits_no_quote.
Qed.

(** What [str(response)] is for the mapping of the endpoint. *)
Lemma api_body (port : Z) :
  str_dict (ProxyTestHandler.api_response port "/api/test")
  = "{'status': 'ok', 'message': 'API endpoint working through proxy', 'port': "
    +:+ str_int port +:+ ", 'path': '/api/test'}".
Proof.
  unfold str_dict, ProxyTestHandler.api_response, str_items, repr.
  change (repr_str "status") with "'status'".
  change (repr_str "ok") with "'ok'".
  change (repr_str "message") with "'message'".
  change (repr_str "API endpoint working through proxy")
    with "'API endpoint working through proxy'".
  change (repr_str "port") with "'port'".
  change (repr_str "path") with "'path'".
  change (repr_str "/api/test") with "'/api/test'".
  rewrite !append_assoc. reflexivity.
Qed.

Lemma api_body_not_json (port : Z) :
  ~ is_infix json_status_ok (str_dict (ProxyTestHandler.api_response port "/api/test")).
Proof.
  apply not_contains_not_infix. rewrite api_body.
  apply missing_char_not_contained.
  rewrite !has_char_append, str_int_no_quote. reflexivity.
Qed.

(** C3. A GET of [/api/test] is answered with status 200 and content type
    application/json. On a server object that carries [server_port] the
    body is the [str] of the mapping, with single quotes, so the text
    ["status": "ok"] does not occur in it; on the [TCPServer] that
    [start_test_server] builds, reading the port raises and the body stays
    empty. *)
Theorem C3_api_test_response (self : handler) (w : world) :
  path (request_of self) = "/api/test" ->
  exists res w' r,
    ProxyTestHandler.do_GET self (w, no_response) = (res, (w', r))
    /\ status r = Some (200, "OK")
    /\ In ("Content-type", "application/json") (headers r)
    /\ ~ is_infix json_status_ok (body r)
    /\ match class_of (server_of self) with
       | HTTPServer =>
           res = Ok tt
           /\ body r =
              "{'status': 'ok', 'message': 'API endpoint working through proxy', 'port': "
              +:+ str_int (snd (server_address (server_of self)))
              +:+ ", 'path': '/api/test'}"
       | TCPServer =>
           res = Raise (AttributeError "TCPServer" "server_port")
           /\ body r = EmptyString
       end.
Proof.
  intros Hp. rewrite (do_GET_api_run self w Hp). cbv zeta.
  unfold server_port. destruct (class_of (server_of self));
    eexists _, _, _; (split; [reflexivity|]); cbn [status headers body];
    (split; [reflexivity|]);
    (split; [apply in_app_iff; right; now left|]).
  - split; [|split; reflexivity].
    apply not_contains_not_infix. reflexivity.
  - split; [apply api_body_not_json|]. split; [reflexivity | apply api_body].
Qed.

Lemma C3_api_test_response_witness :
  exists res w' r,
    ProxyTestHandler.do_GET
      (handler_for "/api/test" {| class_of := TCPServer; server_address := ("0.0.0.0", 9999) |})
      (world_of Linux ∅ [] [] false, no_response) = (res, (w', r))
    /\ status r = Some (200, "OK")
    /\ In ("Content-type", "application/json") (headers r)
    /\ ~ is_infix json_status_ok (body r)
    /\ res = Raise (AttributeError "TCPServer" "server_port")
    /\ body r = EmptyString.
Proof.
  apply (C3_api_test_response
           (handler_for "/api/test" {| class_of := TCPServer; server_address := ("0.0.0.0", 9999) |})
           (world_of Linux ∅ [] [] false)).
  reflexivity.
Defined.

(** The same through the running server: started in the foreground on
    port 9999, it answers one GET of [/api/test] with the status line and
    headers and no body, reports the exception on standard error, and
    returns when interrupted. *)
Example running_server_api_test :
  let w := world_of Linux ∅ [] [request_of (handler_for "/api/test"
             {| class_of := TCPServer; server_address := ("0.0.0.0", 9999) |})] true in
  let '(res, w') := start_test_server 9999 false w in
  res = Returns None
  /\ map (fun r => (status r, body r)) (served w') = [(Some (200, "OK"), EmptyString)]
  /\ In "AttributeError: 'TCPServer' object has no attribute 'server_port'" (stderr w').
Proof.
  vm_compute. repeat split. right. right. now left.
Qed.

(** The home page through the running server: the status line and the
    headers, then the same exception, and no page. *)
Example running_server_home_page :
  let w := world_of Linux ∅ [] [request_of (handler_for "/"
             {| class_of := TCPServer; server_address := ("0.0.0.0", 9999) |})] true in
  let '(res, w') := start_test_server 9999 false w in
  res = Returns None
  /\ map (fun r => (status r, body r)) (served w') = [(Some (200, "OK"), EmptyString)]
  /\ In "AttributeError: 'TCPServer' object has no attribute 'server_port'" (stderr w').
Proof.
  vm_compute. repeat split. right. right. now left.
Qed.

(** With a server object that has the attribute, the text sent for port 9999. *)
Example api_body_9999 :
  str_dict (ProxyTestHandler.api_response 9999 "/api/test")
  = "{'status': 'ok', 'message': 'API endpoint working through proxy', 'port': 9999, 'path': '/api/test'}".
Proof. reflexivity. Qed.

End Api.

(** ** Other paths, and the log *)

Section Fallback.

(** C7. A GET whose path is none of [/], [/index.html] and [/api/test] is
    handled by [SimpleHTTPRequestHandler.do_GET]; when the path leads to no
    file the answer is the not-found status 404. *)
Theorem C7_other_paths_fall_back (self : handler) :
  path (request_of self) <> "/" ->
  path (request_of self) <> "/index.html" ->
  path (request_of self) <> "/api/test" ->
  ProxyTestHandler.do_GET self = SimpleHTTPRequestHandler_do_GET self
  /\ forall w : world,
       filesystem w (path (request_of self)) = NoEntry ->
       exists w' r,
         ProxyTestHandler.do_GET self (w, no_response) = (Ok tt, (w', r))
         /\ status r = Some (404, "File not found")
         /\ headers_ended r = true.
Proof.
  intros H1 H2 H3. split; [now apply do_GET_other_run|].
  intros w Hfs. rewrite (do_GET_other_run self H1 H2 H3).
  destruct (base_do_GET_run self w) as (res & r & Hrun & Hst & _ & Hgood).
  rewrite Hfs in Hrun, Hst, Hgood.
  destruct Hgood as [-> Hend]; [discriminate|]. eauto.
Qed.

Lemma C7_other_paths_fall_back_witness :
  let self := handler_for "/nope.txt"
                {| class_of := TCPServer; server_address := ("0.0.0.0", 9999) |} in
  ProxyTestHandler.do_GET self = SimpleHTTPRequestHandler_do_GET self
  /\ exists w' r,
       ProxyTestHandler.do_GET self (world_of Linux ∅ [] [] false, no_response)
       = (Ok tt, (w', r))
       /\ status r = Some (404, "File not found")
       /\ headers_ended r = true.
Proof.
  cbv zeta.
  destruct (C7_other_paths_fall_back
              (handler_for "/nope.txt"
                 {| class_of := TCPServer; server_address := ("0.0.0.0", 9999) |}))
    as [Heq Hnf]; [discriminate | discriminate | discriminate |].
  split; [exact Heq|]. apply Hnf. reflexivity.
Defined.





(** The two lines of a request for a missing file. *)
Example log_of_missing_file :
  let self := handler_for "/nope.txt"
                {| class_of := TCPServer; server_address := ("0.0.0.0", 9999) |} in
  stdout (fst (snd (ProxyTestHandler.do_GET self (world_of Linux ∅ [] [] false, no_response))))
  = [ "[Proxy Test Server] 127.0.0.1 - code 404, message File not found";
      "[Proxy Test Server] 127.0.0.1 - " +:+ dq +:+ "GET /nope.txt HTTP/1.1" +:+ dq +:+ " 404 -" ].
Proof. reflexivity. Qed.

End Fallback.

(** ** The socket server *)

Section Serving.

Lemma mem_head (port : Z) (ports : list Z) : mem port (port :: ports) = true.
Proof. unfold mem. simpl. now rewrite Z.eqb_refl. Qed.

Lemma mem_filter_out (port : Z) (ports : list Z) :
  mem port (List.filter (fun p => negb (Z.eqb p port)) ports) = false.
Proof.
  unfold mem. induction ports as [|p ports IH]; [reflexivity|].
  simpl. destruct (Z.eqb p port) eqn:E; simpl; [exact IH|].
  rewrite Z.eqb_sym, E. exact IH.
Qed.

Lemma only_printed_refl (w : world) : only_printed w w.
Proof.
  exists []. destruct w. unfold set_stdout. cbn. now rewrite app_nil_r.
Qed.

Lemma only_printed_print (text : string) (w w' : world) :
  only_printed w w' -> only_printed w (print text w').
Proof.
  intros [lines ->]. exists (lines ++ [text])%list.
  unfold print, set_stdout. cbn. now rewrite app_assoc.
Qed.

(** The banner only prints. *)
Lemma announce_effect (port : Z) (w : world) : only_printed w (announce port w).
Proof.
  unfold announce. cbv zeta.
  destruct (truthy _); repeat apply only_printed_print; apply only_printed_refl.
Qed.

(** Time passing leaves all but the surroundings as it is. *)
Lemma arrive_fields (w : world) :
  sigint (arrive w) = sigint w
  /\ listening (arrive w) = listening w
  /\ incoming (arrive w) = incoming w
  /\ served (arrive w) = served w
  /\ in_use (arrive w) = in_use w
  /\ privileged (arrive w) = privileged w.
Proof.
  unfold arrive. destruct (later w) as [|[[e f] c] rest]; repeat split.
Qed.

(** One request leaves sockets, pending interrupt and queue as they are
    and adds one answer. *)
Lemma process_request_effect (httpd : server) (req : request) (w : world) :
  exists w' r,
    process_request Handler httpd req w = (Ok tt, w')
    /\ sigint w' = sigint w
    /\ listening w' = listening w
    /\ incoming w' = incoming w
    /\ served w' = (served w ++ [r])%list.
Proof.
  unfold process_request, Handler. cbv zeta.
  destruct (arrive_fields w) as (H1 & H2 & H3 & H4 & _).
  rewrite <- H1, <- H2, <- H3, <- H4.
  destruct (do_GET_effect {| request_of := req; server_of := httpd |} (arrive w))
    as (res & lines & r & -> & Hcase).
  revert Hcase. destruct (status r) as [[code message]|].
  - intros ([-> | ->] & _);
      eexists _, r; (split; [reflexivity|]); repeat split.
  - intros (-> & _).
    eexists _, r; (split; [reflexivity|]); repeat split.
Qed.

Lemma process_requests_effect (httpd : server) (reqs : list request) (w : world) :
  exists w' rs,
    process_requests Handler httpd reqs w = (Ok tt, w')
    /\ sigint w' = sigint w
    /\ listening w' = listening w
    /\ incoming w' = incoming w
    /\ served w' = (served w ++ rs)%list
    /\ length rs = length reqs.
Proof.
  revert w. induction reqs as [|req reqs IH]; intros w.
  - exists w, []. rewrite app_nil_r. repeat split.
  - destruct (process_request_effect httpd req w) as (w1 & r & Hrun & Hs & Hl & Hi & Hv).
    destruct (IH w1) as (w2 & rs & Hrun2 & Hs2 & Hl2 & Hi2 & Hv2 & Hlen).
    exists w2, (r :: rs). cbn [process_requests]. rewrite Hrun, Hrun2.
    split; [reflexivity|]. repeat split; try congruence.
    + rewrite Hv2, Hv, <- app_assoc. reflexivity.
    + simpl. now rewrite Hlen.
Qed.

(** The accept loop on an open socket answers every request that comes
    in, then ends with the interrupt if one arrives and goes on
    otherwise. *)
Lemma serve_forever_open (httpd : server) (w : world) :
  accepts (snd (server_address httpd)) w = true ->
  exists w' rs,
    serve_forever Handler httpd w
    = ((if sigint w then Raises KeyboardInterrupt else RunsForever), w')
    /\ listening w' = listening w
    /\ served w' = (served w ++ rs)%list
    /\ length rs = length (incoming w).
Proof.
  intros Ha. unfold serve_forever. rewrite Ha.
  destruct (process_requests_effect httpd (incoming w) (set_incoming w []))
    as (w' & rs & -> & Hs & Hl & _ & Hv & Hlen).
  rewrite Hs. exists w', rs.
  cbn [sigint listening served set_incoming] in *.
  split; [now destruct (sigint w)|]. repeat split; assumption.
Qed.

Lemma serve_forever_closed (httpd : server) (w : world) :
  accepts (snd (server_address httpd)) w = false ->
  serve_forever Handler httpd w = (Raises ValueError, w).
Proof.
  intros Ha. unfold serve_forever. now rewrite Ha.
Qed.

End Serving.

(** ** [start_test_server] *)

Section Start.

Lemma only_printed_listening (w w' : world) :
  only_printed w w' -> listening w' = listening w.
Proof. now intros [lines ->]. Qed.

Lemma only_printed_sigint (w w' : world) :
  only_printed w w' -> sigint w' = sigint w.
Proof. now intros [lines ->]. Qed.

Lemma only_printed_incoming (w w' : world) :
  only_printed w w' -> incoming w' = incoming w.
Proof. now intros [lines ->]. Qed.

Lemma only_printed_served (w w' : world) :
  only_printed w w' -> served w' = served w.
Proof. now intros [lines ->]. Qed.

(** The two lines of the port-in-use report. *)
Lemma start_bind_fails (port : Z) (background : bool) (w : world) (e : exn) :
  socket_bind port w = Some e ->
  start_test_server port background w =
  match e with
  | OSError errno =>
      if errno =? 48 then
        (Returns None,
         print ("   Try a different port or stop the existing server." +:+ nl)
           (print (nl +:+ "❌ Error: Port " +:+ str_int port +:+ " is already in use.") w))
      else (Raises (OSError errno), w)
  | _ => (Raises e, w)
  end.
Proof.
  intros Hb. unfold start_test_server, TCPServer_init. rewrite Hb.
  cbv beta iota zeta. destruct e; reflexivity.
Qed.

Lemma only_printed_threads (w w' : world) :
  only_printed w w' -> threads w' = threads w.
Proof. now intros [lines ->]. Qed.

(** The world in which the body of the [with] block starts. *)
Lemma bound_world (port : Z) (w : world) :
  let w1 := announce port (set_listening w (port :: listening w)) in
  listening w1 = port :: listening w
  /\ sigint w1 = sigint w
  /\ incoming w1 = incoming w
  /\ served w1 = served w
  /\ threads w1 = threads w.
Proof.
  cbv zeta.
  pose proof (announce_effect port (set_listening w (port :: listening w))) as Ha.
  rewrite (only_printed_listening _ _ Ha), (only_printed_sigint _ _ Ha),
    (only_printed_incoming _ _ Ha), (only_printed_served _ _ Ha),
    (only_printed_threads _ _ Ha).
  repeat split.
Qed.

Lemma TCPServer_init_ok (port : Z) (w : world) :
  socket_bind port w = None ->
  TCPServer_init port w
  = (Ok {| class_of := TCPServer; server_address := ("0.0.0.0", port) |},
     set_listening w (port :: listening w)).
Proof. intros Hb. unfold TCPServer_init. now rewrite Hb. Qed.

Lemma server_close_fields (httpd : server) (w : world) :
  listening (server_close httpd w)
  = List.filter (fun p => negb (Z.eqb p (snd (server_address httpd)))) (listening w)
  /\ threads (server_close httpd w) = threads w
  /\ served (server_close httpd w) = served w.
Proof. repeat split. Qed.

Lemma set_threads_fields (w : world) (v : list thread) :
  threads (set_threads w v) = v /\ listening (set_threads w v) = listening w.
Proof. split; reflexivity. Qed.

Lemma print_fields (text : string) (w : world) :
  listening (print text w) = listening w /\ served (print text w) = served w.
Proof. split; reflexivity. Qed.

(** In the background: the thread is made and started, and leaving the
    [with] block closes the socket before the caller has the handle. *)
Lemma start_background (port : Z) (w : world) :
  socket_bind port w = None ->
  let t := {| t_port := port; t_daemon := true; t_started := true |} in
  exists w',
    start_test_server port true w = (Returns (Some t), w')
    /\ threads w' = (threads w ++ [t])%list
    /\ listening w' = List.filter (fun p => negb (Z.eqb p port)) (port :: listening w).
Proof.
  intros Hb. cbv zeta. unfold start_test_server.
  rewrite (TCPServer_init_ok port w Hb). cbv beta iota zeta.
  eexists. split; [reflexivity|].
  destruct (bound_world port w) as (Hl & _ & _ & _ & Ht).
  destruct (server_close_fields
              {| class_of := TCPServer; server_address := ("0.0.0.0", port) |}
              (set_threads (announce port (set_listening w (port :: listening w)))
                 (threads (announce port (set_listening w (port :: listening w)))
                  ++ [{| t_port := port; t_daemon := true; t_started := true |}])))
    as (-> & -> & _).
  rewrite !(proj1 (set_threads_fields _ _)), !(proj2 (set_threads_fields _ _)).
  rewrite Hl, Ht. split; reflexivity.
Qed.

(** In the foreground: the loop answers what comes in and ends only with
    an interrupt, after which the socket is closed and [None] returned. *)
Lemma start_foreground (port : Z) (w : world) :
  socket_bind port w = None ->
  exists w' rs,
    start_test_server port false w
    = ((if sigint w then Returns None else RunsForever), w')
    /\ accepts port w' = negb (sigint w)
    /\ served w' = (served w ++ rs)%list
    /\ length rs = length (incoming w).
Proof.
  intros Hb. unfold start_test_server.
  rewrite (TCPServer_init_ok port w Hb). cbv beta iota zeta.
  destruct (bound_world port w) as (Hl & Hs & Hi & Hv & _).
  assert (Ha : accepts (snd (server_address
                 {| class_of := TCPServer; server_address := ("0.0.0.0", port) |}))
                 (announce port (set_listening w (port :: listening w))) = true).
  { unfold accepts. rewrite Hl. apply mem_head. }
  destruct (serve_forever_open _ _ Ha) as (w2 & rs & Hrun & Hl2 & Hv2 & Hlen).
  rewrite Hrun, Hs. destruct (sigint w); cbv beta iota zeta.
  - eexists _, rs. split; [reflexivity|].
    destruct (server_close_fields
                {| class_of := TCPServer; server_address := ("0.0.0.0", port) |}
                (print (nl +:+ "Shutting down test server...") w2)) as (Hc & _ & Hcv).
    unfold accepts. rewrite Hc, Hcv, (proj2 (print_fields _ _)), Hv2, Hv, Hlen, Hi.
    split; [apply mem_filter_out | split; reflexivity].
  - exists w2, rs. split; [reflexivity|].
    unfold accepts. rewrite Hl2, Hl, Hv2, Hv, Hlen, Hi.
    split; [apply mem_head | split; reflexivity].
Qed.

End Start.

(** ** Background start, port in use, return values *)

Section StartClaims.

(** C1. On a free port, [start_test_server(port, background=True)] makes
    one daemon thread for the accept loop, starts it and returns its
    handle; but the [return] leaves the [with] block, which closes the
    listening socket: once the call has returned the process no longer
    accepts on the port, and the thread, whenever it runs and whatever
    requests are sent, answers none of them and prints nothing. *)
Theorem C1_background_socket_closed_on_return (port : Z) (w : world) :
  socket_bind port w = None ->
  exists t w',
    start_test_server port true w = (Returns (Some t), w')
    /\ t = {| t_port := port; t_daemon := true; t_started := true |}
    /\ threads w' = (threads w ++ [t])%list
    /\ accepts port w' = false
    /\ forall reqs : list request,
         snd (run_thread t (set_incoming w' reqs)) = set_incoming w' reqs.
Proof.
  intros Hb. destruct (start_background port w Hb) as (w' & Hrun & Ht & Hl).
  eexists _, w'. split; [exact Hrun|]. split; [reflexivity|]. split; [exact Ht|].
  assert (Ha : accepts port w' = false).
  { unfold accepts. rewrite Hl. apply mem_filter_out. }
  split; [exact Ha|]. intros reqs.
  unfold run_thread, serve. rewrite serve_forever_closed; [reflexivity|].
  exact Ha.
Qed.

Lemma C1_background_socket_closed_on_return_witness :
  exists t w',
    start_test_server 9999 true (world_of Linux ∅ [] [] false) = (Returns (Some t), w')
    /\ t = {| t_port := 9999; t_daemon := true; t_started := true |}
    /\ threads w' = [t]
    /\ accepts 9999 w' = false
    /\ forall reqs : list request,
         snd (run_thread t (set_incoming w' reqs)) = set_incoming w' reqs.
Proof.
  apply (C1_background_socket_closed_on_return 9999 (world_of Linux ∅ [] [] false)).
  reflexivity.
Defined.

(** A socket some other process listens on makes the bind fail with the
    platform's EADDRINUSE. *)
Lemma bind_in_use (port : Z) (w : world) :
  0 <= port <= 65535 ->
  mem port (in_use w) = true ->
  socket_bind port w = Some (OSError (EADDRINUSE (platform_of w))).
Proof.
  intros Hr Hu. unfold socket_bind.
  replace ((0 <=? port) && (port <=? 65535)) with true by (symmetry; apply andb_true_iff; lia).
  cbn [negb]. now rewrite Hu.
Qed.

(** C2. When another process listens on the port, what
    [start_test_server] does depends on the platform: where EADDRINUSE is
    48 (Darwin) it prints the two lines of the report and returns [None]
    without serving; elsewhere (Linux 98, Windows 10048) the [OSError]
    leaves the function and nothing is printed. *)
Theorem C2_port_in_use (port : Z) (background : bool) (w : world) :
  0 <= port <= 65535 ->
  mem port (in_use w) = true ->
  start_test_server port background w =
  match platform_of w with
  | Darwin =>
      (Returns None,
       print ("   Try a different port or stop the existing server." +:+ nl)
         (print (nl +:+ "❌ Error: Port " +:+ str_int port +:+ " is already in use.") w))
  | Linux => (Raises (OSError 98), w)
  | Windows => (Raises (OSError 10048), w)
  end.
Proof.
  intros Hr Hu. rewrite (start_bind_fails port background w _ (bind_in_use port w Hr Hu)).
  destruct (platform_of w); reflexivity.
Qed.

Lemma C2_port_in_use_witness :
  start_test_server 9999 true (world_of Linux ∅ [9999] [] false)
  = (Raises (OSError 98), world_of Linux ∅ [9999] [] false).
Proof.
  apply (C2_port_in_use 9999 true (world_of Linux ∅ [9999] [] false)).
  - lia.
  - reflexivity.
Defined.

(** Any other failure of the bind leaves the function unchanged. *)
Lemma other_bind_failure_is_raised (port : Z) (background : bool) (w : world) (e : exn) :
  socket_bind port w = Some e ->
  e <> OSError 48 ->
  start_test_server port background w = (Raises e, w).
Proof.
  intros Hb Hne. rewrite (start_bind_fails port background w e Hb).
  destruct e as [errno| | | | | |]; try reflexivity.
  destruct (Z.eqb_spec errno 48) as [->|]; [congruence | reflexivity].
Qed.

(** Two servers one after the other on the same port, the first one in
    the foreground and still running: the second start ends with the
    OSError on Linux. *)
Example second_server_on_linux :
  let w := world_of Linux ∅ [] [] false in
  let '(first, w1) := start_test_server 9999 false w in
  first = RunsForever
  /\ accepts 9999 w1 = true
  /\ fst (start_test_server 9999 false w1) = Raises (OSError 98).
Proof. vm_compute. repeat split. Qed.

(** C10. A foreground run that ends with an interrupt returns [None].
    A start on a port another process listens on returns [None] as well
    only where "address already in use" is error number 48 (Darwin): the
    two results are then the same value. On Linux and Windows the
    [OSError] (98, 10048) reaches the caller instead, and the two results
    differ. *)
Theorem C10_none_only_where_errno_is_48 (port : Z) (background : bool)
    (w_busy w_free : world) :
  0 <= port <= 65535 ->
  mem port (in_use w_busy) = true ->
  socket_bind port w_free = None ->
  sigint w_free = true ->
  fst (start_test_server port false w_free) = Returns None
  /\ fst (start_test_server port background w_busy)
     = match platform_of w_busy with
       | Darwin => Returns None
       | Linux => Raises (OSError 98)
       | Windows => Raises (OSError 10048)
       end
  /\ (fst (start_test_server port background w_busy)
      = fst (start_test_server port false w_free)
      <-> platform_of w_busy = Darwin).
Proof.
  intros Hr Hbusy Hfree Hint.
  rewrite (start_bind_fails port background w_busy _ (bind_in_use port w_busy Hr Hbusy)).
  destruct (start_foreground port w_free Hfree) as (w' & rs & -> & _).
  rewrite Hint. cbn [fst].
  destruct (platform_of w_busy); cbn [EADDRINUSE Z.eqb Pos.eqb fst];
    (split; [reflexivity|]); (split; [reflexivity|]);
    split; intros H; try reflexivity; discriminate.
Qed.

Lemma C10_none_only_where_errno_is_48_witness :
  fst (start_test_server 9999 false (world_of Linux ∅ [] [] true)) = Returns None
  /\ fst (start_test_server 9999 true (world_of Linux ∅ [9999] [] false))
     = Raises (OSError 98)
  /\ fst (start_test_server 9999 true (world_of Linux ∅ [9999] [] false))
     <> fst (start_test_server 9999 false (world_of Linux ∅ [] [] true)).
Proof.
  destruct (C10_none_only_where_errno_is_48 9999 true
              (world_of Linux ∅ [9999] [] false) (world_of Linux ∅ [] [] true))
    as (Hfree & Hbusy & Hsame); [lia | reflexivity | reflexivity | reflexivity |].
  split; [exact Hfree|]. split; [exact Hbusy|].
  intros Heq. apply Hsame in Heq. discriminate.
Defined.

End StartClaims.

(** ** The command line *)

Section CommandLine.

(** [int()] fails in one way only. *)
Lemma int_of_str_cases (text : string) :
  (exists n, int_of_str text = Ok n) \/ int_of_str text = Raise ValueError.
Proof.
  unfold int_of_str.
  destruct (match lstrip text with
            | String "-"%char rest => (true, rest)
            | String "+"%char rest => (false, rest)
            | _ => (false, lstrip text)
            end) as [negative s'].
  destruct (digits 0 0 false s') as [[n count]|]; [|now right].
  destruct (max_str_digits <? count)%nat; [now right | left; eauto].
Qed.

Lemma print_tip_effect (w : world) : only_printed w (print_tip w).
Proof.
  unfold print_tip. cbv zeta.
  repeat apply only_printed_print. apply only_printed_refl.
Qed.

Lemma only_printed_bind (port : Z) (w w' : world) :
  only_printed w w' -> socket_bind port w' = socket_bind port w.
Proof. now intros [lines ->]. Qed.

(** C6. The script takes the port from its first argument, 9999 when
    there is none. An argument that [int()] refuses makes it print the
    two usage lines and exit with status 1 without opening a socket; an
    argument [int()] accepts makes it run [start_test_server] with that
    port in the foreground, after the tip: when the port can be bound the
    process listens on it and answers the requests that come in, until an
    interrupt. *)
Theorem C6_command_line (prog : string) (w : world) :
  main [prog] w = run_foreground 9999 w
  /\ main [] w = run_foreground 9999 w
  /\ (forall (arg : string) (rest : list string),
        int_of_str arg = Raise ValueError ->
        exists w',
          main (prog :: arg :: rest) w = (Raises (SystemExit 1), w')
          /\ exit_status (Raises (SystemExit 1)) = Some 1
          /\ stdout w' = (stdout w ++ [ "Invalid port number: " +:+ arg;
                                       "Usage: python test_jupyter_proxy.py [port]" ])%list
          /\ listening w' = listening w
          /\ served w' = served w)
  /\ (forall (arg : string) (rest : list string) (port : Z),
        int_of_str arg = Ok port ->
        main (prog :: arg :: rest) w = run_foreground port w)
  /\ (forall port : Z,
        only_printed w (print_tip w)
        /\ fst (run_foreground port w)
           = match fst (start_test_server port false (print_tip w)) with
             | Returns _ => Returns tt
             | Raises e => Raises e
             | RunsForever => RunsForever
             end)
  /\ (forall port : Z,
        socket_bind port w = None ->
        exists w' rs,
          run_foreground port w = ((if sigint w then Returns tt else RunsForever), w')
          /\ accepts port w' = negb (sigint w)
          /\ served w' = (served w ++ rs)%list
          /\ length rs = length (incoming w)).
Proof.
  split; [reflexivity|]. split; [reflexivity|]. split; [|split; [|split]].
  - intros arg rest Hv. unfold main. rewrite Hv. eexists. split; [reflexivity|].
    split; [reflexivity|]. unfold print, set_stdout. cbn. rewrite <- app_assoc.
    repeat split.
  - intros arg rest port Hv. unfold main. now rewrite Hv.
  - intros port. split.
    + apply print_tip_effect.
    + unfold run_foreground.
      destruct (start_test_server port false (print_tip w)) as [[?|?|] ?]; reflexivity.
  - intros port Hb. pose proof (print_tip_effect w) as Htip.
    rewrite <- (only_printed_bind port _ _ Htip) in Hb.
    destruct (start_foreground port (print_tip w) Hb) as (w' & rs & Hrun & Ha & Hv & Hlen).
    rewrite (only_printed_sigint _ _ Htip) in Hrun, Ha.
    rewrite (only_printed_served _ _ Htip) in Hv.
    rewrite (only_printed_incoming _ _ Htip) in Hlen.
    exists w', rs. unfold run_foreground. rewrite Hrun.
    split; [now destruct (sigint w)|]. repeat split; assumption.
Qed.

Lemma C6_command_line_witness :
  (exists w',
     main ["test_jupyter_proxy.py"; "abc"] (world_of Linux ∅ [] [] false)
     = (Raises (SystemExit 1), w')
     /\ exit_status (Raises (SystemExit 1)) = Some 1
     /\ stdout w' = [ "Invalid port number: abc";
                      "Usage: python test_jupyter_proxy.py [port]" ]
     /\ listening w' = []
     /\ served w' = [])
  /\ main ["test_jupyter_proxy.py"; "8080"] (world_of Linux ∅ [] [] false)
     = run_foreground 8080 (world_of Linux ∅ [] [] false).
Proof.
  destruct (C6_command_line "test_jupyter_proxy.py" (world_of Linux ∅ [] [] false))
    as (_ & _ & Hbad & Hgood & _ & _).
  split.
  - apply (Hbad "abc" []). reflexivity.
  - apply (Hgood "8080" [] 8080). reflexivity.
Defined.

(** The script on a free port: the server is up and answers until it is
    interrupted. *)
Example script_serves :
  let w := world_of Linux ∅ [] [request_of (handler_for "/nope.txt"
             {| class_of := TCPServer; server_address := ("0.0.0.0", 8080) |})] false in
  let '(res, w') := main ["test_jupyter_proxy.py"; "8080"] w in
  res = RunsForever
  /\ accepts 8080 w' = true
  /\ map status (served w') = [Some (404, "File not found")].
Proof. vm_compute. repeat split. Qed.

End CommandLine.

(** ** The sample configuration *)

Section Configuration.
Import JupyterServerConfig.

(** C9, as stated, fails: the launcher entry of the configuration is
    enabled, not disabled. *)
Lemma C9_counterexample :
  at_path ["proxy-test"; "launcher_entry"; "enabled"] servers <> Some (PBool false).
Proof. vm_compute. discriminate. Qed.

(** C9, amended. The configuration file registers the server under the
    name proxy-test with the command [python -m test_jupyter_proxy], port
    9999, timeout 30 and a launcher entry that is enabled; the sample
    text that [create_jupyter_server_config] prints and returns says the
    same. *)
Theorem C9_server_proxy_entry :
  at_path ["proxy-test"; "command"] servers
    = Some (PList [PStr "python"; PStr "-m"; PStr "test_jupyter_proxy"])
  /\ at_path ["proxy-test"; "port"] servers = Some (PInt 9999)
  /\ at_path ["proxy-test"; "timeout"] servers = Some (PInt 30)
  /\ at_path ["proxy-test"; "launcher_entry"; "enabled"] servers = Some (PBool true)
  /\ (forall w : world,
        fst (create_jupyter_server_config w) = config
        /\ stdout (snd (create_jupyter_server_config w)) = (stdout w ++ [config])%list)
  /\ is_infix "'command': ['python', '-m', 'test_jupyter_proxy']" config
  /\ is_infix "'port': 9999" config
  /\ is_infix "'timeout': 30" config
  /\ is_infix "'enabled': True" config.
Proof.
  do 4 (split; [reflexivity|]).
  split; [intros w; split; reflexivity|].
  repeat match goal with
         | |- _ /\ _ => split
         end; apply contains_is_infix; vm_compute; reflexivity.
Qed.

End Configuration.

(** * Further properties *)

(** ** A request is answered from the request and the surroundings alone *)

Section Stateless.

Lemma same_inputs_refl (w : world) : same_inputs w w.
Proof. repeat split. Qed.

Lemma same_inputs_sym (w w' : world) : same_inputs w w' -> same_inputs w' w.
Proof. intros (He & Hf & Hc). repeat split; congruence. Qed.

Lemma same_inputs_trans (w1 w2 w3 : world) :
  same_inputs w1 w2 -> same_inputs w2 w3 -> same_inputs w1 w3.
Proof. intros (He & Hf & Hc) (He' & Hf' & Hc'). repeat split; congruence. Qed.

Lemma only_printed_same_inputs (w w' : world) : only_printed w w' -> same_inputs w w'.
Proof. intros [lines ->]. repeat split. Qed.

Lemma alike_ret {A : Type} (R : A -> A -> Prop) (a1 a2 : A) :
  R a1 a2 -> alike R (ret a1) (ret a2).
Proof. intros Ha w1 w2 r Hw. cbn. auto. Qed.

Lemma alike_lift {A : Type} (x : result A) : alike eq (lift x) (lift x).
Proof. intros w1 w2 r Hw. unfold lift. destruct x; auto. Qed.

Lemma alike_get_world : alike same_inputs get_world get_world.
Proof. intros w1 w2 r Hw. cbn. auto. Qed.

Lemma alike_print (text : string) : alike eq (on_world (print text)) (on_world (print text)).
Proof.
  intros w1 w2 r (He & Hf & Hc). unfold on_world. cbn [fst snd].
  repeat split; assumption.
Qed.

Lemma alike_on_response (f : response -> response) :
  alike eq (on_response f) (on_response f).
Proof. intros w1 w2 r Hw. cbn. auto. Qed.

Lemma alike_bind {A B : Type} (R : A -> A -> Prop) (S : B -> B -> Prop)
    (c1 c2 : M A) (k1 k2 : A -> M B) :
  alike R c1 c2 ->
  (forall a1 a2, R a1 a2 -> alike S (k1 a1) (k2 a2)) ->
  alike S (bind c1 k1) (bind c2 k2).
Proof.
  intros Hc Hk w1 w2 r Hw. unfold bind.
  specialize (Hc w1 w2 r Hw).
  destruct (c1 (w1, r)) as [[a1|e1] [w1' r1]], (c2 (w2, r)) as [[a2|e2] [w2' r2]];
    try contradiction.
  - destruct Hc as (Ha & Hw' & ->). apply (Hk a1 a2 Ha w1' w2' r2 Hw').
  - exact Hc.
Qed.

(** The common case: the second computation does not look at the result
    of the first. *)
Lemma alike_then {A B : Type} (S : B -> B -> Prop) (c : M A) (k1 k2 : M B) :
  alike eq c c -> alike S k1 k2 ->
  alike S (bind c (fun _ => k1)) (bind c (fun _ => k2)).
Proof.
  intros Hc Hk. apply (alike_bind eq); [exact Hc | intros; exact Hk].
Qed.

Lemma alike_log_message (self : handler) (format : string) (args : list value) :
  alike eq (ProxyTestHandler.log_message self format args)
           (ProxyTestHandler.log_message self format args).
Proof.
  unfold ProxyTestHandler.log_message, mbind, M_bind.
  apply (alike_bind eq); [apply alike_lift|].
  intros m ? <-. apply alike_print.
Qed.

Lemma alike_send_header (keyword value : string) :
  alike eq (send_header keyword value) (send_header keyword value).
Proof. apply alike_on_response. Qed.

Lemma alike_send_response (self : handler) (code : Z) (message : option string) :
  alike eq (send_response self code message) (send_response self code message).
Proof.
  unfold send_response, log_request, Http.log_message,
    ProxyTestHandler.ProxyTestHandler_methods, mbind, M_bind.
  apply alike_then; [apply alike_log_message|].
  apply alike_then; [apply alike_on_response|].
  apply alike_then; [apply alike_send_header|].
  apply (alike_bind same_inputs); [apply alike_get_world|].
  intros w1 w2 (_ & _ & ->). apply alike_send_header.
Qed.

Lemma alike_send_error (self : handler) (code : Z) (message : string) :
  alike eq (send_error self code message) (send_error self code message).
Proof.
  unfold send_error, log_error, Http.log_message,
    ProxyTestHandler.ProxyTestHandler_methods, mbind, M_bind.
  apply alike_then; [apply alike_log_message|].
  apply alike_then; [apply alike_send_response|].
  repeat (apply alike_then; [apply alike_on_response|]).
  apply alike_on_response.
Qed.

Lemma alike_base_do_GET (self : handler) :
  alike eq (SimpleHTTPRequestHandler_do_GET self) (SimpleHTTPRequestHandler_do_GET self).
Proof.
  unfold SimpleHTTPRequestHandler_do_GET, send_head, mbind, M_bind, mret, M_ret.
  apply (alike_bind eq).
  - apply (alike_bind same_inputs); [apply alike_get_world|].
    intros w1 w2 (_ & -> & _).
    destruct (filesystem w2 (path (request_of self))).
    + apply alike_then; [apply alike_send_error | now apply alike_ret].
    + apply alike_then; [apply alike_send_response|].
      do 4 (apply alike_then; [apply alike_on_response|]). now apply alike_ret.
    + apply alike_then; [apply alike_send_response|].
      apply alike_then; [apply alike_on_response|]. now apply alike_ret.
    + apply alike_then; [apply alike_send_response|].
      do 3 (apply alike_then; [apply alike_on_response|]). now apply alike_ret.
    + apply alike_then; [apply alike_send_response|].
      do 3 (apply alike_then; [apply alike_on_response|]). now apply alike_ret.
    + apply alike_lift.
  - intros f ? <-. destruct f; [apply alike_on_response | now apply alike_ret].
Qed.

Lemma alike_do_GET (self : handler) :
  alike eq (ProxyTestHandler.do_GET self) (ProxyTestHandler.do_GET self).
Proof.
  unfold ProxyTestHandler.do_GET, mbind, M_bind.
  destruct (_ || _).
  - apply alike_then; [apply alike_send_response|].
    do 2 (apply alike_then; [apply alike_on_response|]).
    apply (alike_bind same_inputs); [apply alike_get_world|].
    intros w1 w2 (-> & _ & _).
    apply (alike_bind eq); [apply alike_lift|].
    intros port ? <-. apply alike_on_response.
  - destruct (String.eqb _ _).
    + apply alike_then; [apply alike_send_response|].
      do 2 (apply alike_then; [apply alike_on_response|]).
      apply (alike_bind eq); [apply alike_lift|].
      intros port ? <-. apply alike_on_response.
    + apply alike_base_do_GET.
Qed.

(** X1. The answer to a GET request depends on the request, the server
    object, the environment, the working directory and the date only:
    handled in two states of the process that agree on these, it ends the
    same way and sends the same status line, headers and body, whatever
    was printed, served or bound before. *)
Theorem answer_depends_on_inputs_only (self : handler) (w1 w2 : world) :
  same_inputs w1 w2 ->
  fst (ProxyTestHandler.do_GET self (w1, no_response))
  = fst (ProxyTestHandler.do_GET self (w2, no_response))
  /\ snd (snd (ProxyTestHandler.do_GET self (w1, no_response)))
     = snd (snd (ProxyTestHandler.do_GET self (w2, no_response))).
Proof.
  intros Hw. pose proof (alike_do_GET self w1 w2 no_response Hw) as H.
  destruct (ProxyTestHandler.do_GET self (w1, no_response)) as [[[]|e1] [w1' r1]],
           (ProxyTestHandler.do_GET self (w2, no_response)) as [[[]|e2] [w2' r2]];
    try contradiction; cbn [fst snd].
  - destruct H as (_ & _ & ->). split; reflexivity.
  - destruct H as (-> & _ & ->). split; reflexivity.
Qed.

Lemma answer_depends_on_inputs_only_witness :
  let self := handler_for "/nope.txt"
                {| class_of := TCPServer; server_address := ("0.0.0.0", 9999) |} in
  let w1 := world_of Linux ∅ [] [] false in
  let w2 := print "earlier output" (world_of Darwin ∅ [8080] [] true) in
  fst (ProxyTestHandler.do_GET self (w1, no_response))
  = fst (ProxyTestHandler.do_GET self (w2, no_response))
  /\ snd (snd (ProxyTestHandler.do_GET self (w1, no_response)))
     = snd (snd (ProxyTestHandler.do_GET self (w2, no_response))).
Proof.
  cbv zeta. apply answer_depends_on_inputs_only. repeat split.
Defined.

End Stateless.

(** ** The accept loop answers each request by itself *)

Section Loop.

Lemma only_printed_undisturbed (w w' : world) : only_printed w w' -> undisturbed w w'.
Proof. intros [lines ->]. repeat split. Qed.

Lemma answer_to_same_inputs (httpd : server) (req : request) (w1 w2 : world) :
  same_inputs w1 w2 -> answer_to httpd w1 req = answer_to httpd w2 req.
Proof.
  intros Hw. unfold answer_to.
  pose proof (alike_do_GET {| request_of := req; server_of := httpd |}
                w1 w2 no_response Hw) as H.
  destruct (ProxyTestHandler.do_GET _ (w1, no_response)) as [[[]|e1] [w1' r1]],
           (ProxyTestHandler.do_GET _ (w2, no_response)) as [[[]|e2] [w2' r2]];
    try contradiction; cbn [fst snd]; now destruct H as (_ & _ & ->).
Qed.

Lemma only_printed_later (w w' : world) : only_printed w w' -> later w' = later w.
Proof. now intros [lines ->]. Qed.

(** Time passes alike in two states with the same surroundings to come. *)
Lemma arrive_same (w1 w2 : world) :
  same_inputs w1 w2 -> later w1 = later w2 ->
  same_inputs (arrive w1) (arrive w2) /\ later (arrive w1) = later (arrive w2).
Proof.
  intros Hi Hl. unfold arrive. rewrite Hl.
  destruct (later w2) as [|[[e f] c] rest] eqn:E.
  - split; [exact Hi | congruence].
  - split; [repeat split | reflexivity].
Qed.

Lemma answers_to_same (httpd : server) (reqs : list request) (w1 w2 : world) :
  same_inputs w1 w2 -> later w1 = later w2 ->
  answers_to httpd w1 reqs = answers_to httpd w2 reqs.
Proof.
  revert w1 w2. induction reqs as [|req reqs IH]; intros w1 w2 Hi Hl; [reflexivity|].
  cbn [answers_to]. destruct (arrive_same w1 w2 Hi Hl) as [Hi' Hl'].
  f_equal; [now apply answer_to_same_inputs | now apply IH].
Qed.

(** Answer number [i] is the answer to request number [i] in the
    surroundings it arrives in. *)
Lemma answers_to_nth (httpd : server) (reqs : list request) (w : world)
    (i : nat) (req : request) :
  nth_error reqs i = Some req ->
  nth_error (answers_to httpd w reqs) i = Some (answer_to httpd (at_arrival i w) req).
Proof.
  revert w i. induction reqs as [|r reqs IH]; intros w [|i] H; try discriminate.
  - cbn in H. injection H as ->. reflexivity.
  - cbn [answers_to nth_error at_arrival] in *. now apply IH.
Qed.

(** One request: one answer added, that of the surroundings the request
    arrives in; sockets and interrupt as they were. *)
Lemma process_request_answer (httpd : server) (req : request) (w : world) :
  exists w',
    process_request Handler httpd req w = (Ok tt, w')
    /\ served w' = (served w ++ [answer_to httpd (arrive w) req])%list
    /\ same_inputs (arrive w) w'
    /\ later w' = later (arrive w)
    /\ sigint w' = sigint w
    /\ listening w' = listening w
    /\ in_use w' = in_use w
    /\ privileged w' = privileged w.
Proof.
  unfold process_request, Handler, answer_to. cbv zeta.
  destruct (arrive_fields w) as (H1 & H2 & _ & H4 & H5 & H6).
  rewrite <- H1, <- H2, <- H4, <- H5, <- H6.
  destruct (do_GET_effect {| request_of := req; server_of := httpd |} (arrive w))
    as (res & lines & r & -> & Hcase).
  revert Hcase. destruct (status r) as [[code message]|].
  - intros ([-> | ->] & _); cbn [fst snd is_Exception]; eexists;
      (split; [reflexivity|]); repeat split.
  - intros (-> & _); cbn [fst snd is_Exception]; eexists;
      (split; [reflexivity|]); repeat split.
Qed.

Lemma process_requests_answers (httpd : server) (reqs : list request) (w : world) :
  exists w',
    process_requests Handler httpd reqs w = (Ok tt, w')
    /\ served w' = (served w ++ answers_to httpd w reqs)%list
    /\ sigint w' = sigint w
    /\ listening w' = listening w
    /\ in_use w' = in_use w
    /\ privileged w' = privileged w.
Proof.
  revert w. induction reqs as [|req reqs IH]; intros w.
  - exists w. cbn [process_requests answers_to]. rewrite app_nil_r.
    repeat split.
  - destruct (process_request_answer httpd req w)
      as (w1 & Hrun & Hv & Hi & Hl & Hs & Hp & Hu & Hr).
    destruct (IH w1) as (w2 & Hrun2 & Hv2 & Hs2 & Hp2 & Hu2 & Hr2).
    exists w2. cbn [process_requests answers_to]. rewrite Hrun, Hrun2.
    split; [reflexivity|].
    split; [|repeat split; congruence].
    rewrite Hv2, Hv, <- app_assoc. cbn [app]. do 2 f_equal.
    apply answers_to_same; [now apply same_inputs_sym | exact Hl].
Qed.

Lemma serve_forever_answers (httpd : server) (w : world) :
  accepts (snd (server_address httpd)) w = true ->
  exists w',
    serve_forever Handler httpd w
    = ((if sigint w then Raises KeyboardInterrupt else RunsForever), w')
    /\ served w' = (served w ++ answers_to httpd w (incoming w))%list
    /\ listening w' = listening w
    /\ in_use w' = in_use w
    /\ privileged w' = privileged w.
Proof.
  intros Ha. unfold serve_forever. rewrite Ha.
  destruct (process_requests_answers httpd (incoming w) (set_incoming w []))
    as (w' & -> & Hv & Hs & Hl & Hu & Hp).
  rewrite Hs. exists w'.
  change (sigint (set_incoming w [])) with (sigint w).
  split; [now destruct (sigint w)|].
  rewrite Hv, Hl, Hu, Hp.
  rewrite (answers_to_same httpd (incoming w) (set_incoming w []) w
             (same_inputs_refl w) eq_refl).
  repeat split.
Qed.

Lemma bound_world_undisturbed (port : Z) (w : world) :
  let w1 := announce port (set_listening w (port :: listening w)) in
  same_inputs w w1
  /\ in_use w1 = in_use w
  /\ privileged w1 = privileged w.
Proof.
  cbv zeta.
  destruct (only_printed_undisturbed _ _
              (announce_effect port (set_listening w (port :: listening w))))
    as (Hi & _ & Hp & Hu & _).
  split; [|split; assumption].
  apply (same_inputs_trans _ (set_listening w (port :: listening w))); [|exact Hi].
  repeat split.
Qed.

(** X2. A server started in the foreground on a free port answers the
    requests that come in one by one and in order: connection number i
    receives what the handler answers to request number i in the
    environment, working directory and date found when that request is
    accepted, whatever the requests before it were and whatever was
    printed or served before. The call returns [None] after an interrupt
    and does not return without one. *)
Theorem foreground_answers_each_request (port : Z) (w : world) :
  socket_bind port w = None ->
  exists w',
    start_test_server port false w
    = ((if sigint w then Returns None else RunsForever), w')
    /\ served w' = (served w ++ answers_to (httpd_on port) w (incoming w))%list
    /\ forall (i : nat) (req : request),
         nth_error (incoming w) i = Some req ->
         nth_error (answers_to (httpd_on port) w (incoming w)) i
         = Some (answer_to (httpd_on port) (at_arrival i w) req).
Proof.
  intros Hb. unfold start_test_server.
  rewrite (TCPServer_init_ok port w Hb). cbv beta iota zeta. fold (httpd_on port).
  destruct (bound_world port w) as (Hl & Hs & Hi & Hv & _).
  destruct (bound_world_undisturbed port w) as (Hin & _).
  pose proof (only_printed_later _ _
                (announce_effect port (set_listening w (port :: listening w)))) as Hlater.
  assert (Ha : accepts (snd (server_address (httpd_on port)))
                 (announce port (set_listening w (port :: listening w))) = true).
  { unfold accepts. rewrite Hl. apply mem_head. }
  destruct (serve_forever_answers _ _ Ha) as (w2 & Hrun & Hv2 & _).
  rewrite Hrun, Hs. rewrite Hv, Hi in Hv2.
  rewrite (answers_to_same (httpd_on port) (incoming w)
             (announce port (set_listening w (port :: listening w))) w
             (same_inputs_sym _ _ Hin) Hlater) in Hv2.
  destruct (sigint w); cbv beta iota zeta.
  - eexists. split; [reflexivity|]. split; [|intros i req; apply answers_to_nth].
    destruct (server_close_fields (httpd_on port)
                (print (nl +:+ "Shutting down test server...") w2)) as (_ & _ & Hcv).
    now rewrite Hcv, (proj2 (print_fields _ _)).
  - exists w2. split; [reflexivity|]. split; [exact Hv2|].
    intros i req; apply answers_to_nth.
Qed.

Lemma foreground_answers_each_request_witness :
  let reqs := [ request_of (handler_for "/nope.txt" (httpd_on 9999));
                request_of (handler_for "/api/test" (httpd_on 9999)) ] in
  let w := with_later (world_of Linux ∅ [] reqs true)
             [ (∅, fun _ => NoEntry, "Thu, 01 Jan 1970 00:00:01 GMT");
               (∅, fun _ => NoEntry, "Thu, 01 Jan 1970 00:00:02 GMT") ] in
  exists w',
    start_test_server 9999 false w = (Returns None, w')
    /\ served w' = answers_to (httpd_on 9999) w reqs
    /\ forall (i : nat) (req : request),
         nth_error reqs i = Some req ->
         nth_error (answers_to (httpd_on 9999) w reqs) i
         = Some (answer_to (httpd_on 9999) (at_arrival i w) req).
Proof.
  cbv zeta.
  apply (foreground_answers_each_request 9999
           (with_later
              (world_of Linux ∅ []
                 [ request_of (handler_for "/nope.txt" (httpd_on 9999));
                   request_of (handler_for "/api/test" (httpd_on 9999)) ] true)
              [ (∅, fun _ => NoEntry, "Thu, 01 Jan 1970 00:00:01 GMT");
                (∅, fun _ => NoEntry, "Thu, 01 Jan 1970 00:00:02 GMT") ])).
  reflexivity.
Defined.

(** The two answers of that run carry the dates of their own arrivals. *)
Example answers_carry_their_dates :
  let reqs := [ request_of (handler_for "/nope.txt" (httpd_on 9999));
                request_of (handler_for "/api/test" (httpd_on 9999)) ] in
  let w := with_later (world_of Linux ∅ [] reqs true)
             [ (∅, fun _ => NoEntry, "Thu, 01 Jan 1970 00:00:01 GMT");
               (∅, fun _ => NoEntry, "Thu, 01 Jan 1970 00:00:02 GMT") ] in
  map (fun r => (status r, List.filter (fun h => String.eqb (fst h) "Date") (headers r)))
      (served (snd (start_test_server 9999 false w)))
  = [ (Some (404, "File not found"), [("Date", "Thu, 01 Jan 1970 00:00:01 GMT")]);
      (Some (200, "OK"), [("Date", "Thu, 01 Jan 1970 00:00:02 GMT")]) ].
Proof. vm_compute. reflexivity. Qed.

End Loop.

(** ** What the page shows *)

Section PageFields.

Lemma truthy_append_slash (v : string) : truthy (v +:+ "/") = true.
Proof. destruct v; reflexivity. Qed.

Lemma proxy_prefix_of_with_slash (environ : gmap string string) :
  ProxyTestHandler.proxy_prefix_of environ
  = with_slash (environ_get environ SERVICE_PREFIX EmptyString).
Proof. reflexivity. Qed.

Lemma with_slash_shape (v : string) :
  (with_slash v = EmptyString \/ exists p, with_slash v = p +:+ "/")
  /\ (with_slash v = EmptyString <-> v = EmptyString)
  /\ with_slash (with_slash v) = with_slash v.
Proof.
  unfold with_slash. destruct v as [|c v]; [cbn; intuition|].
  cbn [truthy andb]. destruct (endswith (String c v) "/") eqn:He; cbn [negb].
  - split; [right; now apply endswith_spec|]. split; [reflexivity|].
    cbn [truthy andb]. now rewrite He.
  - split; [right; eauto|]. split.
    + rewrite append_cons. split; discriminate.
    + rewrite truthy_append_slash.
      rewrite (proj2 (endswith_spec (String c v +:+ "/") "/")) by eauto.
      reflexivity.
Qed.

(** X3. Whatever JUPYTERHUB_SERVICE_PREFIX holds, the derived prefix is
    either empty or ends with "/"; it is empty exactly when the variable
    is unset or empty, and deriving again from the derived value changes
    nothing. *)
Theorem derived_prefix_is_empty_or_ends_with_slash (environ : gmap string string) :
  let prefix := ProxyTestHandler.proxy_prefix_of environ in
  (prefix = EmptyString \/ exists p, prefix = p +:+ "/")
  /\ (prefix = EmptyString <->
      environ !! SERVICE_PREFIX = None \/ environ !! SERVICE_PREFIX = Some EmptyString)
  /\ ProxyTestHandler.proxy_prefix_of (<[SERVICE_PREFIX := prefix]> environ) = prefix.
Proof.
  cbv zeta. rewrite !proxy_prefix_of_with_slash.
  destruct (with_slash_shape (environ_get environ SERVICE_PREFIX EmptyString))
    as (H1 & H2 & H3).
  split; [exact H1|]. split.
  - rewrite H2. unfold environ_get.
    destruct (environ !! SERVICE_PREFIX) as [v|].
    + split; [intros ->; now right | intros [?|?]; congruence].
    + split; [now left | reflexivity].
  - unfold environ_get at 1. rewrite lookup_insert_eq. exact H3.
Qed.

(** A text found in one of the lines that hold a replacement field is
    found in the page. *)
Lemma page_has_line (field self_path : string) (port : Z) (proxy_prefix : string)
    (environ : gmap string string) :
  is_infix field (ProxyTestHandler.request_path_line self_path)
  \/ is_infix field (ProxyTestHandler.server_port_line port)
  \/ is_infix field (ProxyTestHandler.proxy_prefix_line proxy_prefix)
  \/ is_infix field (ProxyTestHandler.access_url_line proxy_prefix port)
  \/ is_infix field (ProxyTestHandler.environ_line environ "JUPYTERHUB_SERVICE_PREFIX")
  \/ is_infix field (ProxyTestHandler.environ_line environ "JUPYTERHUB_BASE_URL")
  \/ is_infix field (ProxyTestHandler.environ_line environ "JUPYTERHUB_USER")
  \/ is_infix field (ProxyTestHandler.console_prefix_line proxy_prefix) ->
  is_infix field (ProxyTestHandler.html_content self_path port proxy_prefix environ).
Proof.
  unfold ProxyTestHandler.html_content.
  intros [H|[H|[H|[H|[H|[H|[H|H]]]]]]].
  - do 1 apply is_infix_append_r. now apply is_infix_append_l.
  - do 2 apply is_infix_append_r. now apply is_infix_append_l.
  - do 3 apply is_infix_append_r. now apply is_infix_append_l.
  - do 4 apply is_infix_append_r. now apply is_infix_append_l.
  - do 6 apply is_infix_append_r. now apply is_infix_append_l.
  - do 7 apply is_infix_append_r. now apply is_infix_append_l.
  - do 8 apply is_infix_append_r. now apply is_infix_append_l.
  - do 10 apply is_infix_append_r. now apply is_infix_append_l.
Qed.

Lemma request_path_line_field (self_path : string) :
  is_infix (request_path_field self_path) (ProxyTestHandler.request_path_line self_path).
Proof.
  exists "            ", nl.
  unfold ProxyTestHandler.request_path_line, request_path_field.
  rewrite !append_assoc. reflexivity.
Qed.

Lemma server_port_line_field (port : Z) :
  is_infix (server_port_field port) (ProxyTestHandler.server_port_line port).
Proof.
  exists "            ", nl.
  unfold ProxyTestHandler.server_port_line, server_port_field.
  rewrite !append_assoc. reflexivity.
Qed.

Lemma proxy_prefix_line_field (proxy_prefix : string) :
  is_infix (proxy_prefix_field (or_ proxy_prefix "Not set (direct access)"))
    (ProxyTestHandler.proxy_prefix_line proxy_prefix).
Proof.
  exists "            ", nl.
  unfold ProxyTestHandler.proxy_prefix_line, proxy_prefix_field.
  rewrite !append_assoc. reflexivity.
Qed.

Lemma access_url_line_field (proxy_prefix : string) (port : Z) :
  is_infix (access_url_field (proxy_prefix +:+ "proxy/" +:+ str_int port +:+ "/"))
    (ProxyTestHandler.access_url_line proxy_prefix port).
Proof.
  exists "            ", nl.
  unfold ProxyTestHandler.access_url_line, ProxyTestHandler.access_url, access_url_field.
  rewrite !append_assoc. reflexivity.
Qed.

Lemma console_prefix_line_statement (proxy_prefix : string) :
  is_infix (console_prefix_statement proxy_prefix)
    (ProxyTestHandler.console_prefix_line proxy_prefix).
Proof.
  exists "        ", nl.
  unfold ProxyTestHandler.console_prefix_line, console_prefix_statement.
  rewrite !append_assoc. reflexivity.
Qed.

Lemma environ_line_item (environ : gmap string string) (name : string) :
  is_infix (environment_item name (environ_get environ name "Not set"))
    (ProxyTestHandler.environ_line environ name).
Proof.
  exists "                ", nl.
  unfold ProxyTestHandler.environ_line, environment_item.
  rewrite !append_assoc. reflexivity.
Qed.

(** X4. On a server that carries its port, the page sent for [/] or
    [/index.html] shows the path asked for, the port of the server, the
    derived prefix (or "Not set (direct access)" when it is empty), the
    access URL made of the derived prefix, [proxy/], the port and [/], and
    the derived prefix again in its script. *)
Theorem home_page_connection_details (self : handler) (w : world) (port : Z) :
  home_paths (path (request_of self)) ->
  server_port (server_of self) = Ok port ->
  exists w' r,
    ProxyTestHandler.do_GET self (w, no_response) = (Ok tt, (w', r))
    /\ let prefix := ProxyTestHandler.proxy_prefix_of (environ w) in
       is_infix (request_path_field (path (request_of self))) (body r)
       /\ is_infix (server_port_field port) (body r)
       /\ is_infix (proxy_prefix_field
                      (if truthy prefix then prefix else "Not set (direct access)"))
            (body r)
       /\ is_infix (access_url_field (prefix +:+ "proxy/" +:+ str_int port +:+ "/"))
            (body r)
       /\ is_infix (console_prefix_statement prefix) (body r).
Proof.
  intros Hp Hs. rewrite (do_GET_home_run self w Hp). cbv zeta. rewrite Hs.
  eexists _, _. split; [reflexivity|]. cbn [body].
  repeat split; apply page_has_line.
  - left. apply request_path_line_field.
  - right; left. apply server_port_line_field.
  - right; right; left. apply proxy_prefix_line_field.
  - right; right; right; left. apply access_url_line_field.
  - do 7 right. apply console_prefix_line_statement.
Qed.

Lemma home_page_connection_details_witness :
  let self := handler_for "/index.html"
                {| class_of := HTTPServer; server_address := ("0.0.0.0", 8080) |} in
  let w := world_of Linux {[ SERVICE_PREFIX := "/user/ann" ]} [] [] false in
  exists w' r,
    ProxyTestHandler.do_GET self (w, no_response) = (Ok tt, (w', r))
    /\ is_infix (request_path_field "/index.html") (body r)
    /\ is_infix (server_port_field 8080) (body r)
    /\ is_infix (proxy_prefix_field "/user/ann/") (body r)
    /\ is_infix (access_url_field "/user/ann/proxy/8080/") (body r)
    /\ is_infix (console_prefix_statement "/user/ann/") (body r).
Proof.
  cbv zeta.
  destruct (home_page_connection_details
              (handler_for "/index.html"
                 {| class_of := HTTPServer; server_address := ("0.0.0.0", 8080) |})
              (world_of Linux {[ SERVICE_PREFIX := "/user/ann" ]} [] [] false) 8080)
    as (w' & r & Hrun & Hfields).
  - right. reflexivity.
  - reflexivity.
  - exists w', r. split; [exact Hrun|]. cbv zeta in Hfields.
    replace (ProxyTestHandler.proxy_prefix_of
               (environ (world_of Linux {[ SERVICE_PREFIX := "/user/ann" ]} [] [] false)))
      with "/user/ann/" in Hfields by (vm_compute; reflexivity).
    exact Hfields.
Defined.

(** X5. On a server object that carries [server_port], the page sent
    for [/] or [/index.html] lists, for each of JUPYTERHUB_SERVICE_PREFIX,
    JUPYTERHUB_BASE_URL and JUPYTERHUB_USER, the value of the variable as
    it is set, and "Not set" when it is unset; so a prefix set without a
    final slash is listed without one. *)
Theorem home_page_environment_list (self : handler) (w : world) (port : Z) (name : string) :
  home_paths (path (request_of self)) ->
  server_port (server_of self) = Ok port ->
  In name ["JUPYTERHUB_SERVICE_PREFIX"; "JUPYTERHUB_BASE_URL"; "JUPYTERHUB_USER"] ->
  exists w' r,
    ProxyTestHandler.do_GET self (w, no_response) = (Ok tt, (w', r))
    /\ is_infix (environment_item name
                   (match environ w !! name with
                    | Some v => v
                    | None => "Not set"
                    end)) (body r).
Proof.
  intros Hp Hs Hn. rewrite (do_GET_home_run self w Hp). cbv zeta. rewrite Hs.
  eexists _, _. split; [reflexivity|]. cbn [body].
  apply page_has_line. do 4 right.
  destruct Hn as [<-|[<-|[<-|[]]]].
  - left. apply environ_line_item.
  - right; left. apply environ_line_item.
  - right; right; left. apply environ_line_item.
Qed.

Lemma home_page_environment_list_witness :
  let self := handler_for "/"
                {| class_of := HTTPServer; server_address := ("0.0.0.0", 8080) |} in
  let w := world_of Linux {[ SERVICE_PREFIX := "/user/ann" ]} [] [] false in
  (exists w' r,
     ProxyTestHandler.do_GET self (w, no_response) = (Ok tt, (w', r))
     /\ is_infix (environment_item "JUPYTERHUB_SERVICE_PREFIX" "/user/ann") (body r))
  /\ (exists w' r,
     ProxyTestHandler.do_GET self (w, no_response) = (Ok tt, (w', r))
     /\ is_infix (environment_item "JUPYTERHUB_USER" "Not set") (body r)).
Proof.
  cbv zeta. split.
  - destruct (home_page_environment_list
                (handler_for "/" {| class_of := HTTPServer; server_address := ("0.0.0.0", 8080) |})
                (world_of Linux {[ SERVICE_PREFIX := "/user/ann" ]} [] [] false) 8080
                "JUPYTERHUB_SERVICE_PREFIX") as (w' & r & Hrun & Hitem);
      [now left | reflexivity | now left |].
    exists w', r. split; [exact Hrun|].
    replace (environ (world_of Linux {[ SERVICE_PREFIX := "/user/ann" ]} [] [] false)
               !! "JUPYTERHUB_SERVICE_PREFIX") with (Some "/user/ann") in Hitem
      by (vm_compute; reflexivity).
    exact Hitem.
  - destruct (home_page_environment_list
                (handler_for "/" {| class_of := HTTPServer; server_address := ("0.0.0.0", 8080) |})
                (world_of Linux {[ SERVICE_PREFIX := "/user/ann" ]} [] [] false) 8080
                "JUPYTERHUB_USER") as (w' & r & Hrun & Hitem);
      [now left | reflexivity | right; right; now left |].
    exists w', r. split; [exact Hrun|].
    replace (environ (world_of Linux {[ SERVICE_PREFIX := "/user/ann" ]} [] [] false)
               !! "JUPYTERHUB_USER") with (@None string) in Hitem
      by (vm_compute; reflexivity).
    exact Hitem.
Defined.

End PageFields.

(** ** Headers and exact paths *)

Section Answers.

(** X6. For [/], [/index.html] and [/api/test] the handler sends the
    status line 200 and exactly three headers, Server, Date and
    Content-type, and ends the headers, before it builds the body: that
    much is sent on every server object, also when reading the port then
    fails, and no Content-Length is ever sent with it. *)
Theorem own_answers_send_three_headers (self : handler) (w : world) :
  home_paths (path (request_of self)) \/ path (request_of self) = "/api/test" ->
  exists res w' r,
    ProxyTestHandler.do_GET self (w, no_response) = (res, (w', r))
    /\ status r = Some (200, "OK")
    /\ headers r = own_headers w (if String.eqb (path (request_of self)) "/api/test"
                                  then "application/json" else "text/html")
    /\ headers_ended r = true
    /\ (forall v, ~ In ("Content-Length", v) (headers r))
    /\ (res = Ok tt <-> class_of (server_of self) = HTTPServer).
Proof.
  assert (Hno : forall ctype v, ~ In ("Content-Length", v) (own_headers w ctype)).
  { intros ctype v [H|[H|[H|[]]]]; discriminate. }
  assert (Hr : (match server_port (server_of self) with
                | Ok _ => Ok tt
                | Raise e => @Raise unit e
                end = Ok tt) <-> class_of (server_of self) = HTTPServer).
  { unfold server_port. destruct (class_of (server_of self)); split; congruence. }
  intros [Hp | Hp].
  - rewrite (do_GET_home_run self w Hp). cbv zeta.
    assert (Hc : String.eqb (path (request_of self)) "/api/test" = false)
      by (destruct Hp as [-> | ->]; reflexivity).
    rewrite Hc.
    destruct (server_port (server_of self)); eexists _, _, _;
      (split; [reflexivity|]); cbn [status headers headers_ended];
      repeat split; try apply Hno; apply Hr.
  - rewrite (do_GET_api_run self w Hp). cbv zeta. rewrite Hp.
    change (String.eqb "/api/test" "/api/test") with true. cbv iota.
    destruct (server_port (server_of self)); eexists _, _, _;
      (split; [reflexivity|]); cbn [status headers headers_ended];
      repeat split; try apply Hno; apply Hr.
Qed.

Lemma own_answers_send_three_headers_witness :
  let self := handler_for "/" (httpd_on 9999) in
  let w := world_of Linux ∅ [] [] false in
  exists res w' r,
    ProxyTestHandler.do_GET self (w, no_response) = (res, (w', r))
    /\ status r = Some (200, "OK")
    /\ headers r = own_headers w "text/html"
    /\ headers_ended r = true
    /\ (forall v, ~ In ("Content-Length", v) (headers r))
    /\ (res = Ok tt <-> TCPServer = HTTPServer).
Proof.
  cbv zeta.
  apply (own_answers_send_three_headers
           (handler_for "/" (httpd_on 9999)) (world_of Linux ∅ [] [] false)).
  left. left. reflexivity.
Defined.

Lemma has_char_not_in (c : ascii) (s t : string) :
  has_char c s = true -> has_char c t = false -> s <> t.
Proof. intros Hs Ht ->. congruence. Qed.

(** X7. The three paths are compared as they come: a path with a query
    string, [/?x=1] or [/api/test?x=1] say, is none of them and goes to
    the file handler, which answers 404 when no file is found under it. *)
Theorem query_string_goes_to_files (self : handler) (w : world) :
  has_char "?"%char (path (request_of self)) = true ->
  ProxyTestHandler.do_GET self = SimpleHTTPRequestHandler_do_GET self
  /\ (filesystem w (path (request_of self)) = NoEntry ->
      exists w' r,
        ProxyTestHandler.do_GET self (w, no_response) = (Ok tt, (w', r))
        /\ status r = Some (404, "File not found")).
Proof.
  intros Hq.
  assert (H1 : path (request_of self) <> "/") by (eapply has_char_not_in; eauto).
  assert (H2 : path (request_of self) <> "/index.html") by (eapply has_char_not_in; eauto).
  assert (H3 : path (request_of self) <> "/api/test") by (eapply has_char_not_in; eauto).
  split; [now apply do_GET_other_run|].
  intros Hfs. rewrite (do_GET_other_run self H1 H2 H3).
  destruct (base_do_GET_run self w) as (res & r & Hrun & Hst & _ & Hgood).
  rewrite Hfs in Hrun, Hst, Hgood.
  destruct Hgood as [-> _]; [discriminate|]. eauto.
Qed.

Lemma query_string_goes_to_files_witness :
  let self := handler_for "/api/test?x=1" (httpd_on 9999) in
  ProxyTestHandler.do_GET self = SimpleHTTPRequestHandler_do_GET self
  /\ exists w' r,
       ProxyTestHandler.do_GET self (world_of Linux ∅ [] [] false, no_response)
       = (Ok tt, (w', r))
       /\ status r = Some (404, "File not found").
Proof.
  cbv zeta.
  destruct (query_string_goes_to_files
              (handler_for "/api/test?x=1" (httpd_on 9999))
              (world_of Linux ∅ [] [] false)) as [Heq Hnf]; [reflexivity|].
  split; [exact Heq | apply Hnf; reflexivity].
Defined.

End Answers.

(** ** Starting, failing to start, coming back *)

Section Starting.

Lemma stdout_print (text : string) (w : world) :
  stdout (print text w) = (stdout w ++ [text])%list.
Proof. reflexivity. Qed.

Lemma environ_print (text : string) (w : world) : environ (print text w) = environ w.
Proof. reflexivity. Qed.

Lemma stdout_server_close (httpd : server) (w : world) :
  stdout (server_close httpd w) = stdout w.
Proof. reflexivity. Qed.

Lemma stdout_set_threads (w : world) (v : list thread) :
  stdout (set_threads w v) = stdout w.
Proof. reflexivity. Qed.

Lemma announce_stdout (port : Z) (w : world) :
  stdout (announce port w) = (stdout w ++ banner port (environ w))%list.
Proof.
  unfold announce, banner. cbv zeta.
  rewrite proxy_prefix_of_with_slash. unfold with_slash.
  rewrite !environ_print. fold SERVICE_PREFIX.
  destruct (environ_get (environ w) SERVICE_PREFIX EmptyString) as [|c v] eqn:Hv.
  - cbn [truthy andb]. rewrite !stdout_print, <- !app_assoc. reflexivity.
  - cbn [truthy]. rewrite andb_true_l.
    destruct (negb (endswith (String c v) "/")).
    + rewrite truthy_append_slash, !stdout_print, <- !app_assoc. reflexivity.
    + cbn [truthy]. rewrite !stdout_print, <- !app_assoc. reflexivity.
Qed.

(** X8. What a start in the background on a free port prints is the
    banner: five lines, then, when the derived prefix is not empty, the
    full URL, which is the access URL the page shows for that prefix and
    port, then the closing rule; nothing else is printed. *)
Theorem banner_announces_the_access_url (port : Z) (w : world) :
  socket_bind port w = None ->
  exists t w',
    start_test_server port true w = (Returns (Some t), w')
    /\ stdout w' = (stdout w ++ banner port (environ w))%list
    /\ (In ("  Full URL: " +:+ ProxyTestHandler.access_url
                                 (ProxyTestHandler.proxy_prefix_of (environ w)) port)
           (banner port (environ w))
        <-> ProxyTestHandler.proxy_prefix_of (environ w) <> EmptyString).
Proof.
  intros Hb. unfold start_test_server.
  rewrite (TCPServer_init_ok port w Hb). cbv beta iota zeta.
  eexists _, _. split; [reflexivity|]. split.
  - rewrite stdout_server_close, stdout_set_threads, announce_stdout.
    reflexivity.
  - unfold banner. cbv zeta.
    destruct (ProxyTestHandler.proxy_prefix_of (environ w)) as [|c p] eqn:Hp;
      cbn [truthy]; rewrite in_app_iff, in_app_iff.
    + split; [|congruence].
      intros [H|[[]|[H|[]]]]; [|destruct (ProxyTestHandler.access_url _ _); discriminate].
      repeat (destruct H as [H|H]; [discriminate|]). destruct H.
    + split; [discriminate|]. intros _. right. left. now left.
Qed.

Lemma banner_announces_the_access_url_witness :
  let w := world_of Linux {[ SERVICE_PREFIX := "/user/ann" ]} [] [] false in
  exists t w',
    start_test_server 9999 true w = (Returns (Some t), w')
    /\ stdout w' = banner 9999 (environ w)
    /\ (In ("  Full URL: " +:+ ProxyTestHandler.access_url
                                 (ProxyTestHandler.proxy_prefix_of (environ w)) 9999)
           (banner 9999 (environ w))
        <-> ProxyTestHandler.proxy_prefix_of (environ w) <> EmptyString).
Proof.
  cbv zeta.
  apply (banner_announces_the_access_url 9999
           (world_of Linux {[ SERVICE_PREFIX := "/user/ann" ]} [] [] false)).
  reflexivity.
Defined.

Lemma bind_out_of_range (port : Z) (w : world) :
  out_of_range port -> socket_bind port w = Some OverflowError.
Proof.
  intros Hr. unfold socket_bind.
  replace ((0 <=? port) && (port <=? 65535)) with false; [reflexivity|].
  symmetry. apply andb_false_iff. unfold out_of_range in Hr.
  destruct Hr; [left; apply Z.leb_gt | right; apply Z.leb_gt]; lia.
Qed.

(** X9. A port below 0 or above 65535 makes [start_test_server] raise
    [OverflowError] in either mode: the [except OSError] clause does not
    apply, nothing is printed, no socket is opened and no thread made. *)
Theorem port_out_of_range_raises (port : Z) (background : bool) (w : world) :
  out_of_range port ->
  start_test_server port background w = (Raises OverflowError, w).
Proof.
  intros Hr.
  now rewrite (start_bind_fails port background w _ (bind_out_of_range port w Hr)).
Qed.

Lemma port_out_of_range_raises_witness :
  start_test_server 70000 true (world_of Linux ∅ [] [] false)
  = (Raises OverflowError, world_of Linux ∅ [] [] false).
Proof.
  apply port_out_of_range_raises. right. lia.
Defined.

(** X10. An argument that [int()] accepts but that is no port number,
    such as -1 or 70000, does not get the usage message: the script
    prints the tip and ends with the [OverflowError], exit status 1. *)
Theorem script_with_integer_out_of_range (prog arg : string) (rest : list string)
    (port : Z) (w : world) :
  int_of_str arg = Ok port ->
  out_of_range port ->
  main (prog :: arg :: rest) w = (Raises OverflowError, print_tip w)
  /\ exit_status (fst (main (prog :: arg :: rest) w)) = Some 1.
Proof.
  intros Hv Hr.
  assert (Hm : main (prog :: arg :: rest) w = (Raises OverflowError, print_tip w)).
  { unfold main. rewrite Hv. unfold run_foreground.
    rewrite (start_bind_fails port false (print_tip w) _
               (bind_out_of_range port (print_tip w) Hr)).
    reflexivity. }
  split; [exact Hm | now rewrite Hm].
Qed.

Lemma script_with_integer_out_of_range_witness :
  main ["test_jupyter_proxy.py"; "-1"] (world_of Linux ∅ [] [] false)
  = (Raises OverflowError, print_tip (world_of Linux ∅ [] [] false))
  /\ exit_status (fst (main ["test_jupyter_proxy.py"; "-1"] (world_of Linux ∅ [] [] false)))
     = Some 1.
Proof.
  apply (script_with_integer_out_of_range "test_jupyter_proxy.py" "-1" [] (-1)).
  - reflexivity.
  - left. lia.
Defined.

(** X11. When the bind fails with error number 48 the script prints the
    tip and the two lines of the report and then ends normally: its exit
    status is 0, as after a run that served and was interrupted. *)
Theorem script_exits_zero_when_port_in_use (prog arg : string) (rest : list string)
    (port : Z) (w : world) :
  int_of_str arg = Ok port ->
  socket_bind port w = Some (OSError 48) ->
  exists w',
    main (prog :: arg :: rest) w = (Returns tt, w')
    /\ exit_status (Returns tt) = Some 0
    /\ only_printed w w'
    /\ exists before,
         stdout w' = (before ++
           [ nl +:+ "❌ Error: Port " +:+ str_int port +:+ " is already in use.";
             "   Try a different port or stop the existing server." +:+ nl ])%list.
Proof.
  intros Hv Hb. pose proof (print_tip_effect w) as Htip.
  rewrite <- (only_printed_bind port _ _ Htip) in Hb.
  unfold main. rewrite Hv. unfold run_foreground.
  rewrite (start_bind_fails port false (print_tip w) _ Hb).
  change (48 =? 48) with true. cbv iota.
  eexists. split; [reflexivity|]. split; [reflexivity|]. split.
  - do 2 apply only_printed_print. exact Htip.
  - exists (stdout (print_tip w)). rewrite !stdout_print, <- app_assoc. reflexivity.
Qed.

Lemma script_exits_zero_when_port_in_use_witness :
  exists w',
    main ["test_jupyter_proxy.py"; "9999"] (world_of Darwin ∅ [9999] [] false)
    = (Returns tt, w')
    /\ exit_status (Returns tt) = Some 0
    /\ only_printed (world_of Darwin ∅ [9999] [] false) w'
    /\ exists before,
         stdout w' = (before ++
           [ nl +:+ "❌ Error: Port " +:+ str_int 9999 +:+ " is already in use.";
             "   Try a different port or stop the existing server." +:+ nl ])%list.
Proof.
  apply (script_exits_zero_when_port_in_use "test_jupyter_proxy.py" "9999" [] 9999);
    reflexivity.
Defined.

Lemma mem_other_head (q port : Z) (ports : list Z) :
  q <> port -> mem q (port :: ports) = mem q ports.
Proof.
  intros Hq. unfold mem. cbn [existsb].
  destruct (Z.eqb_spec q port); [contradiction | reflexivity].
Qed.

Lemma mem_other_filter_out (q port : Z) (ports : list Z) :
  q <> port -> mem q (List.filter (fun p => negb (Z.eqb p port)) ports) = mem q ports.
Proof.
  intros Hq. unfold mem. induction ports as [|p ports IH]; [reflexivity|].
  cbn [List.filter existsb]. destruct (Z.eqb_spec p port) as [->|Hp]; cbn [negb existsb].
  - rewrite IH. destruct (Z.eqb_spec q port); [contradiction | reflexivity].
  - now rewrite IH.
Qed.

(** X12. Whenever [start_test_server] comes back from a port it could
    bind, in the background at once or in the foreground after an
    interrupt, the socket is closed again: the process does not listen on
    the port any more, while the sockets it had on other ports are as
    they were. *)
Theorem socket_is_closed_on_return (port : Z) (background : bool) (w : world) :
  socket_bind port w = None ->
  background = true \/ sigint w = true ->
  exists v w',
    start_test_server port background w = (Returns v, w')
    /\ accepts port w' = false
    /\ forall q : Z, q <> port -> accepts q w' = accepts q w.
Proof.
  intros Hb Hmode. unfold start_test_server.
  rewrite (TCPServer_init_ok port w Hb). cbv beta iota zeta. fold (httpd_on port).
  destruct (bound_world port w) as (Hl & Hs & Hi & Hv & Ht).
  destruct background.
  - eexists _, _. split; [reflexivity|]. unfold accepts.
    destruct (server_close_fields (httpd_on port)
                (set_threads (announce port (set_listening w (port :: listening w)))
                   (threads (announce port (set_listening w (port :: listening w)))
                    ++ [{| t_port := port; t_daemon := true; t_started := true |}])))
      as (-> & _ & _).
    rewrite (proj2 (set_threads_fields _ _)), Hl. cbn [snd server_address httpd_on].
    split; [apply mem_filter_out|].
    intros q Hq. now rewrite mem_other_filter_out, mem_other_head.
  - destruct Hmode as [Hmode|Hmode]; [discriminate|].
    assert (Ha : accepts (snd (server_address (httpd_on port)))
                   (announce port (set_listening w (port :: listening w))) = true).
    { unfold accepts. rewrite Hl. apply mem_head. }
    destruct (serve_forever_answers _ _ Ha) as (w2 & Hrun & _ & Hl2 & _).
    rewrite Hrun, Hs, Hmode. cbv beta iota zeta.
    eexists _, _. split; [reflexivity|]. unfold accepts.
    destruct (server_close_fields (httpd_on port)
                (print (nl +:+ "Shutting down test server...") w2)) as (-> & _ & _).
    rewrite (proj1 (print_fields _ _)), Hl2, Hl. cbn [snd server_address httpd_on].
    split; [apply mem_filter_out|].
    intros q Hq. now rewrite mem_other_filter_out, mem_other_head.
Qed.

Lemma socket_is_closed_on_return_witness :
  exists v w',
    start_test_server 9999 false (world_of Linux ∅ [] [] true) = (Returns v, w')
    /\ accepts 9999 w' = false
    /\ forall q : Z, q <> 9999 -> accepts q w' = accepts q (world_of Linux ∅ [] [] true).
Proof.
  apply (socket_is_closed_on_return 9999 false (world_of Linux ∅ [] [] true)).
  - reflexivity.
  - now right.
Defined.

End Starting.
